(** * Verification of the message normaliser, the file-backed message store
      and the connection lifecycle of @areumtecnologia/baileys

    The development is a shallow embedding of
    - [src/utils/message-normalizer.js]  (module [Normalizer]),
    - [src/utils/message-store.js]       (module [MessageStore]),
    - the [connection.update] and [messages.upsert] handlers of the client,
      as [src/utils/generic-utils.js] has them ([src/index.js] holds an
      earlier copy with the same [close] branch and the same store guard)
      (module [Lifecycle]),
    over a small model of JavaScript values (module [Js]). *)

From Stdlib Require Import ZArith String Ascii List Bool Lia.
From stdpp Require Import gmap strings list pretty.

Local Open Scope string_scope.
Local Open Scope Z_scope.

(** ** JavaScript values *)

Module Js.

(** Outcome of an evaluation: a value, or a thrown [Error] object.  Thrown
    values are [Error] instances: they carry a [message] string and an optional
    [code] ([err.message] and [err.code] in the sources). *)
Record Exn : Type := mkExn {
  exn_name : string;
  exn_message : string;
  exn_code : option string
}.

Inductive Res (A : Type) : Type :=
| Ok (a : A)
| Throw (e : Exn).
Arguments Ok {A} a.
Arguments Throw {A} e.

Definition bind {A B : Type} (m : Res A) (k : A -> Res B) : Res B :=
  match m with
  | Ok a => k a
  | Throw e => Throw e
  end.

(** [try { body } catch (err) { handler }] *)
Definition try_catch {A : Type} (body : Res A) (handler : Exn -> Res A) : Res A :=
  match body with
  | Ok a => Ok a
  | Throw e => handler e
  end.

#[global] Instance res_ret : MRet Res := fun A a => Ok a.
#[global] Instance res_bind : MBind Res := fun A B k m => bind m k.

(** Values.  Numbers are the integers and NaN (the modelled code computes
    with no fraction).  An object is the list of its own enumerable properties in
    [Object.keys] order.  [JDate t] is a [Date] with time value [t]
    ([None] is an invalid date).  [JFun name env] is a closure.  A promise is
    an object of its own: [JPromise r props] has settled with outcome [r]
    and carries the properties [props] assigned on the promise object. *)
#[local] Unset Elimination Schemes.
Inductive JV : Type :=
| JUndef
| JNull
| JBool (b : bool)
| JNum (z : Z)
| JNaN
| JStr (s : string)
| JArr (xs : list JV)
| JObj (fields : list (string * JV))
| JDate (t : option Z)
| JFun (name : string) (env : JV)
| JPromise (settled : Res JV) (props : list (string * JV)).
#[local] Set Elimination Schemes.

Definition TypeError (msg : string) : Exn :=
  {| exn_name := "TypeError"; exn_message := msg; exn_code := None |}.

(** ToBoolean *)
Definition truthy (v : JV) : bool :=
  match v with
  | JUndef | JNull | JNaN => false
  | JBool b => b
  | JNum z => negb (z =? 0)
  | JStr s => negb (String.eqb s "")
  | _ => true
  end.

Definition nullish (v : JV) : bool :=
  match v with
  | JUndef | JNull => true
  | _ => false
  end.

(** [a || b] and [!!a] *)
Definition or_else (a b : JV) : JV := if truthy a then a else b.
Definition to_bool (a : JV) : JV := JBool (truthy a).

Fixpoint lookup_field (k : string) (fs : list (string * JV)) : JV :=
  match fs with
  | [] => JUndef
  | (k', v) :: r => if String.eqb k k' then v else lookup_field k r
  end.

(** Array index denoted by a property key ("0", "1", "27", ...). *)
Definition digit_of (c : ascii) : option nat :=
  let n := nat_of_ascii c in
  if ((48 <=? n) && (n <=? 57))%nat then Some (n - 48)%nat else None.

Fixpoint digits_value (s : string) (acc : nat) : option nat :=
  match s with
  | EmptyString => Some acc
  | String c r =>
      match digit_of c with
      | Some d => digits_value r (10 * acc + d)%nat
      | None => None
      end
  end.

Definition index_of_key (k : string) : option nat :=
  match k with
  | EmptyString => None
  | String "0" EmptyString => Some 0%nat
  | String "0" _ => None
  | _ => digits_value k 0
  end.

Definition name_of (v : JV) : string :=
  match v with
  | JUndef => "undefined"
  | _ => "null"
  end.

Definition read_error (v : JV) (k : string) : Exn :=
  TypeError ("Cannot read properties of " ++ name_of v ++ " (reading '" ++ k ++ "')").

Definition string_at (s : string) (i : nat) : JV :=
  match String.get i s with
  | Some c => JStr (String c EmptyString)
  | None => JUndef
  end.

(** [v.k] / [v[k]]: throws on [undefined] and [null], otherwise reads an own
    data property ([undefined] when there is none). *)
Definition get (v : JV) (k : string) : Res JV :=
  match v with
  | JUndef | JNull => Throw (read_error v k)
  | JObj fs => Ok (lookup_field k fs)
  | JPromise _ props => Ok (lookup_field k props)
  | JArr xs =>
      match index_of_key k with
      | Some i => Ok (nth i xs JUndef)
      | None => if String.eqb k "length" then Ok (JNum (Z.of_nat (length xs))) else Ok JUndef
      end
  | JStr s =>
      match index_of_key k with
      | Some i => Ok (string_at s i)
      | None => if String.eqb k "length" then Ok (JNum (Z.of_nat (String.length s))) else Ok JUndef
      end
  | _ => Ok JUndef
  end.

(** [v?.k] never throws. *)
Definition opt_get (v : JV) (k : string) : JV :=
  match get v k with
  | Ok x => x
  | Throw _ => JUndef
  end.

Fixpoint opt_path (v : JV) (ks : list string) : JV :=
  match ks with
  | [] => v
  | k :: r => opt_path (opt_get v k) r
  end.

(** [a === b] where at most one side is a fresh object: primitives compare by
    value, NaN differs from itself, distinct objects are never identical. *)
Definition strict_eq (a b : JV) : bool :=
  match a, b with
  | JUndef, JUndef => true
  | JNull, JNull => true
  | JBool x, JBool y => Bool.eqb x y
  | JNum x, JNum y => (x =? y)
  | JStr x, JStr y => String.eqb x y
  | _, _ => false
  end.

(** [Object.keys(v)] for a non-nullish [v]. *)
Definition index_keys (n : nat) : list string :=
  map (fun i => pretty (N.of_nat i)) (seq 0 n).

Definition object_keys (v : JV) : Res (list string) :=
  match v with
  | JUndef | JNull => Throw (TypeError "Cannot convert undefined or null to object")
  | JObj fs => Ok (map fst fs)
  | JPromise _ props => Ok (map fst props)
  | JArr xs => Ok (index_keys (length xs))
  | JStr s => Ok (index_keys (String.length s))
  | _ => Ok []
  end.

Definition key_or_undef (k : option string) : JV :=
  match k with
  | Some s => JStr s
  | None => JUndef
  end.

(** The property key a value denotes when used in [obj[v]]. *)
Definition prop_key (v : JV) : string :=
  match v with
  | JStr s => s
  | JUndef => "undefined"
  | _ => "null"
  end.

(** *** Numbers and dates *)

Definition pad (width : nat) (n : Z) : string :=
  let d := pretty (Z.to_N n) in
  String.concat "" (repeat "0"%string (width - String.length d)) ++ d.

(** Calendar date of a day count since 1970-01-01 (proleptic Gregorian). *)
Definition civil_from_days (days : Z) : Z * Z * Z :=
  let z := days + 719468 in
  let era := z / 146097 in
  let doe := z - era * 146097 in
  let yoe := (doe - doe / 1460 + doe / 36524 - doe / 146096) / 365 in
  let doy := doe - (365 * yoe + yoe / 4 - yoe / 100) in
  let mp := (5 * doy + 2) / 153 in
  let d := doy - (153 * mp + 2) / 5 + 1 in
  let m := if mp <? 10 then mp + 3 else mp - 9 in
  let y := yoe + era * 400 + (if m <=? 2 then 1 else 0) in
  (y, m, d).

Definition days_from_civil (y m d : Z) : Z :=
  let y' := if m <=? 2 then y - 1 else y in
  let era := y' / 400 in
  let yoe := y' - era * 400 in
  let mp := if m <=? 2 then m + 9 else m - 3 in
  let doy := (153 * mp + 2) / 5 + d - 1 in
  let doe := yoe * 365 + yoe / 4 - yoe / 100 + doy in
  era * 146097 + doe - 719468.

Definition ms_per_day : Z := 86400000.
Definition max_time : Z := 8640000000000000.

(** [Date.prototype.toISOString] *)
Definition toISOString (t : Z) : string :=
  let '(y, m, d) := civil_from_days (t / ms_per_day) in
  let r := t mod ms_per_day in
  let year :=
    if (0 <=? y) && (y <=? 9999) then pad 4 y
    else (if y <? 0 then "-" else "+") ++ pad 6 (Z.abs y) in
  year ++ "-" ++ pad 2 m ++ "-" ++ pad 2 d ++ "T" ++
  pad 2 (r / 3600000) ++ ":" ++ pad 2 (r / 60000 mod 60) ++ ":" ++
  pad 2 (r / 1000 mod 60) ++ "." ++ pad 3 (r mod 1000) ++ "Z".

Definition digits_to_Z (s : string) : option Z :=
  match s with
  | EmptyString => None
  | _ => Z.of_nat <$> digits_value s 0
  end.

(** [Date.parse] on the format [toISOString] writes
    (YYYY-MM-DDTHH:mm:ss.sssZ); other spellings are not recognised. *)
Definition Date_parse (s : string) : option Z :=
  if negb (Nat.eqb (String.length s) 24) then None
  else if negb (String.eqb (substring 4 1 s ++ substring 7 1 s ++ substring 10 1 s ++
                             substring 13 1 s ++ substring 16 1 s ++ substring 19 1 s ++
                             substring 23 1 s) "--T::.Z") then None
  else
    y ← digits_to_Z (substring 0 4 s);
    m ← digits_to_Z (substring 5 2 s);
    d ← digits_to_Z (substring 8 2 s);
    hh ← digits_to_Z (substring 11 2 s);
    mm ← digits_to_Z (substring 14 2 s);
    ss ← digits_to_Z (substring 17 2 s);
    ms ← digits_to_Z (substring 20 3 s);
    if (1 <=? m) && (m <=? 12) && (1 <=? d) && (d <=? 31) &&
       (hh <=? 24) && (mm <=? 59) && (ss <=? 59)
    then Some (days_from_civil y m d * ms_per_day + hh * 3600000 + mm * 60000 + ss * 1000 + ms)
    else None.

(** [Number(v)]; [None] is NaN.  Strings are read as decimal integers; of the
    objects only a [Date] and the empty array have a number. *)
Definition to_number (v : JV) : option Z :=
  match v with
  | JUndef | JNaN => None
  | JNull => Some 0
  | JBool b => Some (if b then 1 else 0)
  | JNum z => Some z
  | JStr EmptyString => Some 0
  | JStr (String "-" r) => Z.opp <$> digits_to_Z r
  | JStr s => digits_to_Z s
  | JArr [] => Some 0
  | JDate t => t
  | _ => None
  end.

Definition time_clip (t : option Z) : option Z :=
  match t with
  | Some z => if Z.abs z <=? max_time then Some z else None
  | None => None
  end.

(** [new Date(v).getTime()]: a string is parsed, a number is the time value,
    an object has no time value. *)
Definition date_time (v : JV) : option Z :=
  match v with
  | JStr s => Date_parse s
  | JDate t => t
  | JNull | JBool _ | JNum _ => time_clip (to_number v)
  | _ => None
  end.

(** [new Date(Number(v) * k)] *)
Definition date_of_number (v : JV) (k : Z) : JV :=
  JDate (time_clip ((fun z => z * k) <$> to_number v)).

(** Template-literal / [String(v)] conversion. *)
Fixpoint to_js_string (v : JV) : string :=
  match v with
  | JUndef => "undefined"
  | JNull => "null"
  | JBool b => if b then "true" else "false"
  | JNum z => pretty z
  | JNaN => "NaN"
  | JStr s => s
  | JArr xs =>
      String.concat "," (map (fun x => if nullish x then "" else to_js_string x) xs)
  | JObj _ => "[object Object]"
  | JDate (Some t) => toISOString t
  | JDate None => "Invalid Date"
  | JFun name _ => name
  | JPromise _ _ => "[object Promise]"
  end.

(** *** JSON *)

(** What a JSON text denotes. *)
#[local] Unset Elimination Schemes.
Inductive Json : Type :=
| JsNull
| JsBool (b : bool)
| JsNum (z : Z)
| JsStr (s : string)
| JsArr (xs : list Json)
| JsObj (fields : list (string * Json)).
#[local] Set Elimination Schemes.

(** Induction over JSON values, through the lists they nest. *)
Section JsonInduction.
Variable P : Json -> Prop.
Hypothesis Hnull : P JsNull.
Hypothesis Hbool : forall b, P (JsBool b).
Hypothesis Hnum : forall z, P (JsNum z).
Hypothesis Hstr : forall s, P (JsStr s).
Hypothesis Harr : forall xs, Forall P xs -> P (JsArr xs).
Hypothesis Hobj : forall fs, Forall (fun kv => P (snd kv)) fs -> P (JsObj fs).

Fixpoint Json_nested_ind (j : Json) : P j :=
  match j with
  | JsNull => Hnull
  | JsBool b => Hbool b
  | JsNum z => Hnum z
  | JsStr s => Hstr s
  | JsArr xs =>
      Harr xs ((fix all (l : list Json) : Forall P l :=
                  match l with
                  | [] => @List.Forall_nil _ P
                  | x :: r => @List.Forall_cons _ P x r (Json_nested_ind x) (all r)
                  end) xs)
  | JsObj fs =>
      Hobj fs ((fix all (l : list (string * Json)) : Forall (fun kv => P (snd kv)) l :=
                  match l with
                  | [] => @List.Forall_nil _ _
                  | kv :: r => @List.Forall_cons _ _ kv r (Json_nested_ind (snd kv)) (all r)
                  end) fs)
  end.
End JsonInduction.

(** [JSON.parse] of a text denoting [j]. *)
Fixpoint of_json (j : Json) : JV :=
  match j with
  | JsNull => JNull
  | JsBool b => JBool b
  | JsNum z => JNum z
  | JsStr s => JStr s
  | JsArr xs => JArr (map of_json xs)
  | JsObj fs => JObj (map (fun kv => (fst kv, of_json (snd kv))) fs)
  end.

(** [JSON.stringify]: [None] is the [undefined] it returns for values with no
    JSON form.  Such values are left out of objects and written [null] in
    arrays; a [Date] is written through [toJSON], NaN as [null]; of a
    promise only the properties assigned on it are written. *)
Fixpoint stringify (v : JV) : option Json :=
  let fields := fix fields (fs : list (string * JV)) : list (string * Json) :=
    match fs with
    | [] => []
    | (k, x) :: r =>
        match stringify x with
        | Some j => (k, j) :: fields r
        | None => fields r
        end
    end in
  match v with
  | JUndef => None
  | JFun _ _ => None
  | JNull => Some JsNull
  | JNaN => Some JsNull
  | JBool b => Some (JsBool b)
  | JNum z => Some (JsNum z)
  | JStr s => Some (JsStr s)
  | JDate (Some t) => Some (JsStr (toISOString t))
  | JDate None => Some JsNull
  | JArr xs => Some (JsArr (map (fun x => default JsNull (stringify x)) xs))
  | JObj fs => Some (JsObj (fields fs))
  | JPromise _ props => Some (JsObj (fields props))
  end.

End Js.

(** ** The file-backed message store ([src/utils/message-store.js]) *)

Module MessageStore.
Import Js.

(** A file of the store directory: it cannot be read, or it holds a text.
    A text is represented by what [JSON.parse] makes of it: [Some j] when it
    is a JSON text denoting [j], [None] when it is not JSON. *)
Inductive File : Type :=
| Unreadable
| Text (parsed : option Json).

(** The store object: its [basePath] and the files below it, by path. *)
Record t : Type := mkStore {
  basePath : string;
  disk : gmap string File
}.

(** [path.join] on segments without separators or dots (chat ids are JIDs). *)
Definition path_join (a b : string) : string := a ++ "/" ++ b.

(** [new MessageStore(basePath)] over the files [d]. *)
Definition create (base : string) (d : gmap string File) : t :=
  {| basePath := path_join base "message_store"; disk := d |}.

Definition _getFilePath (st : t) (chatId : JV) : string :=
  path_join (basePath st) (to_js_string chatId ++ ".json").

Definition existsSync (st : t) (path : string) : bool :=
  bool_decide (is_Some (disk st !! path)).

Definition readFileSync (st : t) (path : string) : Res (option Json) :=
  match disk st !! path with
  | Some (Text txt) => Ok txt
  | Some Unreadable =>
      Throw {| exn_name := "Error"; exn_message := "EACCES: permission denied, open '" ++ path ++ "'";
               exn_code := Some "EACCES" |}
  | None =>
      Throw {| exn_name := "Error"; exn_message := "ENOENT: no such file or directory, open '" ++ path ++ "'";
               exn_code := Some "ENOENT" |}
  end.

Definition JSON_parse (txt : option Json) : Res JV :=
  match txt with
  | Some j => Ok (of_json j)
  | None => Throw {| exn_name := "SyntaxError"; exn_message := "Unexpected token in JSON"; exn_code := None |}
  end.

Definition _loadMessages (st : t) (chatId : JV) : Res JV :=
  let filePath := _getFilePath st chatId in
  if negb (existsSync st filePath) then Ok (JArr [])
  else
    try_catch
      (txt ← readFileSync st filePath;
       v ← JSON_parse txt;
       Ok (or_else v (JArr [])))
      (fun err => Ok (JArr [])).

(** [fs.writeFileSync(filePath, JSON.stringify(messages, null, 2))]; a value
    without JSON form makes [writeFileSync] reject its argument. *)
Definition _saveMessages (st : t) (chatId : JV) (messages : JV) : Res t :=
  let filePath := _getFilePath st chatId in
  match stringify messages with
  | Some j => Ok {| basePath := basePath st; disk := <[filePath := Text (Some j)]> (disk st) |}
  | None => Throw (TypeError "The 'data' argument must be of type string")
  end.

(** [xs.find(p)] on the elements of an array. *)
Fixpoint find_elem (p : JV -> Res bool) (xs : list JV) : Res JV :=
  match xs with
  | [] => Ok JUndef
  | x :: r => b ← p x; if b : bool then Ok x else find_elem p r
  end.

Definition not_a_function (v : JV) (method : string) : Exn :=
  if nullish v then read_error v method
  else TypeError ("messages." ++ method ++ " is not a function").

Definition array_find (v : JV) (p : JV -> Res bool) : Res JV :=
  match v with
  | JArr xs => find_elem p xs
  | _ => Throw (not_a_function v "find")
  end.

(** [m => m.id === id] *)
Definition has_id (id : JV) (m : JV) : Res bool :=
  mid ← get m "id"; Ok (strict_eq mid id).

(** [m => m.id === message.id] ([message.id] is read at each call) *)
Definition same_id (message : JV) (m : JV) : Res bool :=
  mid ← get m "id"; id ← get message "id"; Ok (strict_eq mid id).

Definition array_push (v : JV) (x : JV) : Res JV :=
  match v with
  | JArr xs => Ok (JArr (xs ++ [x]))
  | _ => Throw (not_a_function v "push")
  end.

Definition saveMessage (st : t) (chatId : JV) (message : JV) : Res t :=
  messages ← _loadMessages st chatId;
  found ← array_find messages (same_id message);
  if negb (truthy found) then
    messages' ← array_push messages message;
    _saveMessages st chatId messages'
  else Ok st.

Definition getMessage (st : t) (chatId : JV) (id : JV) : Res JV :=
  messages ← _loadMessages st chatId;
  array_find messages (has_id id).

(** [ts >= bound] and [ts <= bound] on time values; false on NaN. *)
Definition time_ge (a b : option Z) : bool :=
  match a, b with Some x, Some y => y <=? x | _, _ => false end.
Definition time_le (a b : option Z) : bool :=
  match a, b with Some x, Some y => x <=? y | _, _ => false end.

Fixpoint filter_elems (p : JV -> Res bool) (xs : list JV) : Res (list JV) :=
  match xs with
  | [] => Ok []
  | x :: r => b ← p x; rest ← filter_elems p r; Ok (if b : bool then x :: rest else rest)
  end.

Definition in_window (from to : JV) (msg : JV) : Res bool :=
  stamp ← get msg "timestamp";
  let ts := date_time stamp in
  Ok ((negb (truthy from) || time_ge ts (date_time from)) &&
      (negb (truthy to) || time_le ts (date_time to))).

(** [messages.slice(-limit)] *)
Definition slice_start (len : nat) (limit : JV) : nat :=
  match to_number limit with
  | None => 0%nat
  | Some n => if 0 <? n then (len - Z.to_nat n)%nat else Nat.min (Z.to_nat (- n)) len
  end.

Definition slice_last (v : JV) (limit : JV) : Res JV :=
  match v with
  | JArr xs => Ok (JArr (drop (slice_start (length xs) limit) xs))
  | JStr s =>
      let k := slice_start (String.length s) limit in
      Ok (JStr (substring k (String.length s - k) s))
  | _ => Throw (not_a_function v "slice")
  end.

(** [getMessages(chatId, { from, to, limit } = {})] *)
Definition getMessages (st : t) (chatId : JV) (opts : JV) : Res JV :=
  opts' ← (match opts with
           | JUndef => Ok (JObj [])
           | JNull => Throw (TypeError "Cannot destructure property 'from' of 'object null' as it is null.")
           | o => Ok o
           end);
  let from := opt_get opts' "from" in
  let to := opt_get opts' "to" in
  let limit := opt_get opts' "limit" in
  messages ← _loadMessages st chatId;
  messages1 ← (if truthy from || truthy to then
                 match messages with
                 | JArr xs => xs' ← filter_elems (in_window from to) xs; Ok (JArr xs')
                 | _ => Throw (not_a_function messages "filter")
                 end
               else Ok messages);
  if truthy limit then slice_last messages1 limit else Ok messages1.

End MessageStore.

(** ** The message normaliser ([src/utils/message-normalizer.js]) *)

Module Normalizer.
Import Js.

(** *** Collaborators *)

(** [client.store]: the default file store, or a store object plugged in
    through [options.store] with its [getMessage] and, when it has one, its
    [setMessage]. *)
Inductive Store : Type :=
| FileStore (st : MessageStore.t)
| PluggedStore (getMessage : JV -> JV -> Res JV) (setMessage : option (JV -> JV -> Res unit)).

Definition store_getMessage (s : Store) (chatId id : JV) : Res JV :=
  match s with
  | FileStore st => MessageStore.getMessage st chatId id
  | PluggedStore g _ => g chatId id
  end.

(** The client object as the normaliser uses it: [client.sock],
    [client.user], [client.store] and the transport's [jidNormalizedUser] and
    [decryptPollVote].  The two hashing expressions of [_extractPollUpdate]
    are carried along:
    [buffer_hex h] is [Buffer.from(h).toString('hex').toUpperCase()],
    [sha256_hex n] is the upper-case hex SHA-256 digest of
    [Buffer.from(n).toString()]. *)
Record Client : Type := mkClient {
  sock : JV;
  user : JV;
  store : Store;
  jidNormalizedUser : JV -> string;
  decryptPollVote : JV -> JV -> Res JV;
  buffer_hex : JV -> Res string;
  sha256_hex : JV -> Res string
}.

(** *** Helpers for method calls *)

Definition andR (a b : Res bool) : Res bool := x ← a; if x : bool then b else Ok false.
Definition orR (a b : Res bool) : Res bool := x ← a; if x : bool then Ok true else b.

Definition has (m : JV) (k : string) : Res bool := v ← get m k; Ok (truthy v).

Definition method_error (v : JV) (method : string) : Exn :=
  if nullish v then read_error v method
  else TypeError (method ++ " is not a function").

Fixpoint is_prefix (p s : string) : bool :=
  match p, s with
  | EmptyString, _ => true
  | String a p', String b s' => Ascii.eqb a b && is_prefix p' s'
  | _, EmptyString => false
  end.

Fixpoint is_substring (p s : string) : bool :=
  is_prefix p s ||
  match s with
  | EmptyString => false
  | String _ s' => is_substring p s'
  end.

Definition ends_with (suffix s : string) : bool :=
  let n := String.length s in
  let k := String.length suffix in
  (k <=? n)%nat && String.eqb (substring (n - k) k s) suffix.

(** [v.endsWith(suffix)] *)
Definition endsWith (v : JV) (suffix : string) : Res bool :=
  match v with
  | JStr s => Ok (ends_with suffix s)
  | _ => Throw (method_error v "endsWith")
  end.

(** [v.includes(x)] for a string [x] *)
Definition includes (v : JV) (x : string) : Res bool :=
  match v with
  | JArr xs => Ok (existsb (fun y => strict_eq y (JStr x)) xs)
  | JStr s => Ok (is_substring x s)
  | _ => Throw (method_error v "includes")
  end.

(** The elements [for (const x of v)] runs over. *)
Definition chars (s : string) : list JV :=
  map (fun c => JStr (String c EmptyString)) (list_ascii_of_string s).

Definition iterate (v : JV) : Res (list JV) :=
  match v with
  | JArr xs => Ok xs
  | JStr s => Ok (chars s)
  | _ => Throw (TypeError (to_js_string v ++ " is not iterable"))
  end.

(** [Object.values(v)] for a non-nullish [v] *)
Definition object_values (v : JV) : list JV :=
  match v with
  | JObj fs => map snd fs
  | JPromise _ props => map snd props
  | JArr xs => xs
  | JStr s => chars s
  | _ => []
  end.

Fixpoint map_elems (f : JV -> Res JV) (xs : list JV) : Res (list JV) :=
  match xs with
  | [] => Ok []
  | x :: r => y ← f x; ys ← map_elems f r; Ok (y :: ys)
  end.

(** [v.map(f)] *)
Definition array_map (v : JV) (f : JV -> Res JV) : Res JV :=
  match v with
  | JArr xs => ys ← map_elems f xs; Ok (JArr ys)
  | _ => Throw (method_error v "map")
  end.

(** [a || b || ... || last]: the first truthy operand, evaluated in order. *)
Fixpoint first_truthy (ops : list (Res JV)) (last : JV) : Res JV :=
  match ops with
  | [] => Ok last
  | o :: r => v ← o; if truthy v then Ok v else first_truthy r last
  end.

(** *** [_getFriendlyType] *)

(** [message.interactiveMessage && message.interactiveMessage.interactiveButtons
     && message.interactiveMessage.interactiveButtons[0].name === name] *)
Definition first_button_is (name : string) (message : JV) : Res bool :=
  im ← get message "interactiveMessage";
  if truthy im then
    ib ← get im "interactiveButtons";
    if truthy ib then
      b0 ← get ib "0";
      nm ← get b0 "name";
      Ok (strict_eq nm (JStr name))
    else Ok false
  else Ok false.

(** [message.a && message.a.b] *)
Definition has2 (a b : string) (message : JV) : Res bool :=
  x ← get message a;
  if truthy x then has x b else Ok false.

Definition native_flow_named (name : string) (message : JV) : Res bool :=
  irm ← get message "interactiveResponseMessage";
  if truthy irm then
    nf ← get irm "nativeFlowResponseMessage";
    if truthy nf then nm ← get nf "name"; Ok (strict_eq nm (JStr name))
    else Ok false
  else Ok false.

(** The [if (...) return '...'] lines of [_getFriendlyType], in source order. *)
Definition friendly_rules : list ((JV -> Res bool) * string) :=
  [ (fun m => orR (has m "conversation") (has m "extendedTextMessage"), "text");
    (fun m => has m "imageMessage", "image");
    (fun m => has m "albumMessage", "album");
    (fun m => orR (has m "videoMessage")
                  (Ok (truthy (opt_path (opt_get m "associatedChildMessage") ["message"; "videoMessage"]))),
     "video");
    (fun m => has m "audioMessage", "audio");
    (fun m => has m "documentMessage", "document");
    (fun m => has m "documentWithCaptionMessage", "document");
    (fun m => has m "stickerMessage", "sticker");
    (fun m => has m "locationMessage", "location");
    (fun m => orR (has m "contactMessage") (has m "contactsArrayMessage"), "contact");
    (fun m => orR (has m "buttonsResponseMessage") (has m "listResponseMessage"), "interactive_reply");
    (fun m => has m "reactionMessage", "reaction");
    (fun m => orR (has m "pollCreationMessage") (has m "pollCreationMessageV3"), "poll_creation");
    (fun m => has m "pollUpdateMessage", "poll_update");
    (fun m => has m "templateButtonReplyMessage", "template_button_reply");
    (fun m => has m "pinInChatMessage", "pin_in_chat");
    (fun m => has m "unpinInChatMessage", "unpin_in_chat");
    (fun m => has m "questionReplyMessage", "question_reply");
    (first_button_is "review_and_pay", "review_and_pay");
    (first_button_is "review_order", "review_order");
    (first_button_is "quick_reply", "quick_reply");
    (first_button_is "cta_url", "cta_url");
    (first_button_is "cta_copy", "cta_copy");
    (first_button_is "cta_call", "cta_call");
    (first_button_is "voice_call", "voice_call");
    (native_flow_named "menu_options", "native_flow_menu_options_response");
    (has2 "interactiveResponseMessage" "nativeFlowResponseMessage", "native_flow_response");
    (has2 "interactiveMessage" "interactiveButtons", "interactive_buttons");
    (has2 "interactiveMessage" "interactiveList", "interactive_list");
    (fun m => has m "interactiveResponseMessage", "interactive_response");
    (fun m => has m "interactiveMessage", "interactive_message") ].

Fixpoint first_rule (rules : list ((JV -> Res bool) * string)) (message : JV) : Res string :=
  match rules with
  | [] => Ok "unknown"
  | (cond, type) :: rest =>
      b ← cond message;
      if b : bool then Ok type else first_rule rest message
  end.

Definition _getFriendlyType (message : JV) : Res string :=
  if negb (truthy message) then Ok "unknown"
  else first_rule friendly_rules message.

(** The semantic-type enumeration: every string [_getFriendlyType] can return. *)
Definition friendly_types : list string := "unknown" :: map snd friendly_rules.

(** *** [_extractBody] *)

Definition _extractBody (message : JV) : Res JV :=
  first_truthy
    [ Ok (opt_get message "conversation");
      Ok (opt_path message ["extendedTextMessage"; "text"]);
      Ok (opt_path message ["imageMessage"; "caption"]);
      Ok (opt_path message ["videoMessage"; "caption"]);
      Ok (opt_path message ["associatedChildMessage"; "message"; "videoMessage"; "caption"]);
      Ok (opt_path message ["documentWithCaptionMessage"; "message"; "documentMessage"; "caption"]);
      Ok (opt_path message ["buttonsResponseMessage"; "selectedDisplayText"]);
      Ok (opt_path message ["listResponseMessage"; "title"]);
      Ok (opt_path message ["templateButtonReplyMessage"; "selectedDisplayText"]);
      (irm ← get message "interactiveResponseMessage"; Ok (opt_path irm ["body"; "text"]));
      Ok (opt_path message ["questionReplyMessage"; "message"; "extendedTextMessage"; "text"]) ]
    (JStr "").

(** *** [_enrichWithTypedData] *)

Definition mediaTypes : list string :=
  ["imageMessage"; "videoMessage"; "audioMessage"; "documentMessage"; "stickerMessage";
   "documentWithCaptionMessage"].

(** [Object.keys(o).find(key => key != "messageContextInfo")] *)
Definition first_content_key (o : JV) : Res JV :=
  ks ← object_keys o;
  Ok (key_or_undef (head (filter (fun k => k ≠ "messageContextInfo") ks))).

(** [obj.k = v] on the property list of an object literal *)
Fixpoint set_field (k : string) (v : JV) (fs : list (string * JV)) : list (string * JV) :=
  match fs with
  | [] => [(k, v)]
  | (k', x) :: r => if String.eqb k k' then (k, v) :: r else (k', x) :: set_field k v r
  end.

(** The function assigns [hasMedia], [media] and [location] on [normalized];
    it is given the properties of [normalized] and returns them updated. *)
Definition _enrichWithTypedData (normalized : list (string * JV)) (rawMessage : JV)
  : Res (list (string * JV)) :=
  content0 ← get rawMessage "message";
  type0 ← first_content_key content0;
  '(content, type) ←
    (if strict_eq type0 (JStr "associatedChildMessage") then
       acm ← get content0 "associatedChildMessage";
       c ← get acm "message";
       t ← first_content_key c;
       Ok (c, t)
     else Ok (content0, type0));
  messageContent ← get content (prop_key type);
  normalized1 ←
    (if existsb (fun t => strict_eq type (JStr t)) mediaTypes then
       dwc ← get content "documentWithCaptionMessage";
       let rootData := if truthy dwc then dwc else content in
       mimetype ← first_truthy [get messageContent "mimetype"]
                    (opt_path (opt_get messageContent "message") ["documentMessage"; "mimetype"]);
       fileName ← first_truthy [get messageContent "fileName"]
                    (opt_path (opt_get messageContent "message") ["documentMessage"; "title"]);
       caption ← first_truthy [get messageContent "caption"]
                    (opt_path (opt_get messageContent "message") ["documentMessage"; "caption"]);
       duration ← first_truthy [get messageContent "seconds"] JNull;
       isPtt ← first_truthy [get messageContent "ptt"] (JBool false);
       isGif ← first_truthy [get messageContent "gifPlayback"] (JBool false);
       isViewOnce ← first_truthy [get messageContent "viewOnce"] (JBool false);
       Ok (set_field "media"
             (JObj [("mimetype", mimetype); ("fileName", fileName); ("caption", caption);
                    ("duration", duration); ("isPtt", isPtt); ("isGif", isGif);
                    ("isViewOnce", isViewOnce); ("getAttachments", JFun "getAttachments" rootData)])
             (set_field "hasMedia" (JBool true) normalized))
     else Ok normalized);
  if strict_eq type (JStr "locationMessage") then
    lat ← get messageContent "degreesLatitude";
    lng ← get messageContent "degreesLongitude";
    Ok (set_field "location" (JObj [("latitude", lat); ("longitude", lng)]) normalized1)
  else Ok normalized1.

(** *** [_extractInteractiveReply], [_extractReaction] *)

Definition _extractInteractiveReply (message : JV) : Res JV :=
  let buttonReply := opt_get message "buttonsResponseMessage" in
  if truthy buttonReply then
    Ok (JObj [("id", opt_get buttonReply "selectedButtonId");
              ("text", opt_get buttonReply "selectedDisplayText")])
  else
  let listReply := opt_get message "listResponseMessage" in
  if truthy listReply then
    Ok (JObj [("id", opt_path listReply ["singleSelectReply"; "selectedRowId"]);
              ("text", opt_get listReply "title")])
  else
  let interactiveReply := opt_get message "interactiveResponseMessage" in
  if truthy interactiveReply then
    nf ← get interactiveReply "nativeFlowResponseMessage";
    id ← get nf "name";
    text ← get nf "paramsJson";
    Ok (JObj [("id", id); ("text", text)])
  else
  let questionReply := opt_get message "questionReplyMessage" in
  if truthy questionReply then
    Ok (JObj [("id", opt_get questionReply "selectedButtonId");
              ("text", opt_get questionReply "selectedDisplayText")])
  else Ok JNull.

Definition _extractReaction (message : JV) : Res JV :=
  let reaction := opt_get message "reactionMessage" in
  if negb (truthy reaction) then Ok JNull
  else
    key ← get reaction "key";
    id ← get key "id";
    Ok (JObj [("emoji", opt_get reaction "text");
              ("reactedMessageId", id);
              ("senderTimestamp", date_of_number (opt_get reaction "senderTimestampMs") 1)]).

(** *** [_extractPollCreation] *)

(** [v > 1] *)
Definition greater_than_one (v : JV) : bool :=
  match to_number v with
  | Some z => 1 <? z
  | None => false
  end.

Definition _extractPollCreation (raw : JV) : Res JV :=
  message ← get raw "message";
  let v1 := opt_get message "pollCreationMessage" in
  poll ← (if truthy v1 then Ok v1 else get message "pollCreationMessageV3");
  if negb (truthy poll) then Ok JNull
  else
    key ← get raw "key";
    id ← get key "id";
    jid ← get key "remoteJid";
    let count := opt_get poll "selectableOptionsCount" in
    options ← array_map (or_else (opt_get poll "options") (JArr []))
                (fun opt =>
                   n ← get opt "optionName";
                   h ← get opt "optionHash";
                   Ok (JObj [("name", or_else n JNull); ("hash", or_else h JNull)]));
    mci ← get message "messageContextInfo";
    let secret := opt_get mci "messageSecret" in
    let stamp := opt_get poll "messageTimestamp" in
    Ok (JObj [("id", id);
              ("creator", JObj [("jid", jid);
                                ("pushName", opt_get raw "pushName");
                                ("verifiedBizName", opt_get raw "verifiedBizName")]);
              ("name", opt_get poll "name");
              ("selectableOptionsCount", count);
              ("allowsMultipleAnswers", JBool (greater_than_one count));
              ("options", options);
              ("messageSecret", secret);
              ("senderTimestamp", if truthy stamp then date_of_number stamp 1000 else JNull);
              ("raw", poll)]).

(** *** [_extractContacts] *)

Definition is_line_terminator (c : ascii) : bool :=
  Ascii.eqb c "010" || Ascii.eqb c "013".

Definition is_digit (c : ascii) : bool :=
  match digit_of c with Some _ => true | None => false end.

Fixpoint take_while (p : ascii -> bool) (s : string) : string :=
  match s with
  | EmptyString => EmptyString
  | String c r => if p c then String c (take_while p r) else EmptyString
  end.

Fixpoint drop_prefix (pre s : string) : option string :=
  match pre, s with
  | EmptyString, _ => Some s
  | String a p', String b s' => if Ascii.eqb a b then drop_prefix p' s' else None
  | _, EmptyString => None
  end.

(** The group of the leftmost match of [pre(c+)], [c] ranging over [p]. *)
Fixpoint match_after (pre : string) (p : ascii -> bool) (s : string) : option string :=
  let here :=
    match drop_prefix pre s with
    | Some rest => let run := take_while p rest in
                   if String.eqb run "" then None else Some run
    | None => None
    end in
  match here, s with
  | Some run, _ => Some run
  | None, EmptyString => None
  | None, String _ r => match_after pre p r
  end.

Fixpoint remove_char (c : ascii) (s : string) : string :=
  match s with
  | EmptyString => EmptyString
  | String a r => if Ascii.eqb a c then remove_char c r else String a (remove_char c r)
  end.

(** [parseVcard = (vcard = '') => ...] with the patterns [/FN:(.+)/],
    [/waid=(\d+)/] and [/\\/g] *)
Definition parseVcard (vcard : JV) : Res JV :=
  match (match vcard with JUndef => JStr "" | v => v end) with
  | JStr s =>
      let nameMatch := match_after "FN:" (fun c => negb (is_line_terminator c)) s in
      let numberMatch := match_after "waid=" is_digit s in
      Ok (JObj [("name", JStr (remove_char "\" (default "" nameMatch)));
                ("number", JStr (default "" numberMatch))])
  | v => Throw (method_error v "match")
  end.

Definition _extractContacts (message : JV) : Res JV :=
  let singleContact := opt_get message "contactMessage" in
  if truthy singleContact then
    c ← parseVcard (opt_get singleContact "vcard");
    Ok (JArr [c])
  else
  let multiContact := opt_path message ["contactsArrayMessage"; "contacts"] in
  if truthy multiContact then
    array_map multiContact (fun c => v ← get c "vcard"; parseVcard v)
  else Ok (JArr []).

(** *** [_extractPollUpdate] *)

(** The degraded result of the three guards and of the [catch] block. *)
Definition poll_state (pollUpdate : JV) (selected : list JV) (rest : list (string * JV)) : JV :=
  JObj ([("pollCreationMessageId", opt_path pollUpdate ["pollCreationMessageKey"; "id"]);
         ("voterTimestamp", date_of_number (opt_get pollUpdate "senderTimestampMs") 1);
         ("selectedOptions", JArr selected)] ++ rest).

Definition error_field (e : Exn) : list (string * JV) :=
  [("error", JStr (exn_message e));
   ("code", match exn_code e with Some c => JStr c | None => JUndef end)].

(** [obj.k = v] in strict mode fails on a primitive [obj]. *)
Definition assignable (obj : JV) (k : string) : Res unit :=
  match obj with
  | JUndef | JNull => Throw (TypeError ("Cannot set properties of " ++ name_of obj ++ " (setting '" ++ k ++ "')"))
  | JBool _ | JNum _ | JNaN | JStr _ =>
      Throw (TypeError ("Cannot create property '" ++ k ++ "' on " ++ to_js_string obj))
  | _ => Ok tt
  end.

(** The inner loop: the label of the first option whose digest is [hashHex]. *)
Fixpoint matching_option (c : Client) (hashHex : string) (options : list JV) : Res (option JV) :=
  match options with
  | [] => Ok None
  | option :: r =>
      name ← get option "optionName";
      hash ← sha256_hex c name;
      if String.eqb hashHex hash then Ok (Some name) else matching_option c hashHex r
  end.

(** The outer loop over [decrypted.selectedOptions]. *)
Fixpoint resolve_votes (c : Client) (options : JV) (hashes : list JV) : Res (list JV) :=
  match hashes with
  | [] => Ok []
  | decryptedHash :: r =>
      hashHex ← buffer_hex c decryptedHash;
      opts ← iterate (or_else options (JArr []));
      hit ← matching_option c hashHex opts;
      rest ← resolve_votes c options r;
      Ok (match hit with Some name => name :: rest | None => rest end)
  end.

(** The [try] block of [_extractPollUpdate]. *)
Definition poll_update_try (client : Client) (key : JV) (isGroup : bool) (clientJid : string)
    (pollUpdate : JV) : Res JV :=
  creationKey ← get pollUpdate "pollCreationMessageKey";
  creationJid ← get creationKey "remoteJid";
  creationId ← get creationKey "id";
  creationMsg ← store_getMessage (store client) creationJid creationId;
  if negb (truthy creationMsg) then Ok JNull
  else
    raw ← get creationMsg "raw";
    rawMessage ← get raw "message";
    v1 ← get rawMessage "pollCreationMessage";
    pollCreationMessage ← (if truthy v1 then Ok v1 else get rawMessage "pollCreationMessageV3");
    assignable rawMessage "pollCreationMessage";;
    if negb (truthy pollCreationMessage) then
      Ok (poll_state pollUpdate [] [("error", JStr "Poll creation message not found")])
    else
      mci ← get rawMessage "messageContextInfo";
      messageSecret ← get mci "messageSecret";
      if negb (truthy messageSecret)
         || negb (truthy (opt_get pollCreationMessage "name"))
         || negb (truthy (opt_get pollCreationMessage "options"))
      then Ok (poll_state pollUpdate [] [("error", JStr "Incomplete poll creation data")])
      else
        let pollEncKeyBuffer := JArr (object_values messageSecret) in
        rawKey ← get raw "key";
        pollCreatorJid ← get rawKey "remoteJid";
        pollMsgId ← get rawKey "id";
        voterJid ← (if isGroup : bool then get key "participant"
                    else fromMe ← get key "fromMe";
                         if truthy fromMe then Ok (JStr clientJid) else get key "remoteJid");
        let decryptPollVoteParams :=
          JObj [("pollCreatorJid", pollCreatorJid); ("pollMsgId", pollMsgId);
                ("pollEncKey", pollEncKeyBuffer); ("voterJid", voterJid)] in
        decrypted ← decryptPollVote client (opt_get pollUpdate "vote") decryptPollVoteParams;
        hashes ← get decrypted "selectedOptions" ≫= iterate;
        selectedOptions ← resolve_votes client (opt_get pollCreationMessage "options") hashes;
        Ok (poll_state pollUpdate selectedOptions
              [("success", JBool (0 <? length selectedOptions)%nat)]).

Definition _extractPollUpdate (msg : JV) (client : Client) : Res JV :=
  key ← get msg "key";
  remoteJid ← get key "remoteJid";
  isGroup ← endsWith remoteJid "@g.us";
  sockUser ← get (sock client) "user";
  userId ← get sockUser "id";
  let clientJid := jidNormalizedUser client userId in
  message ← get msg "message";
  let pollUpdate := opt_get message "pollUpdateMessage" in
  if negb (truthy pollUpdate) || negb (truthy (opt_get pollUpdate "pollCreationMessageKey"))
  then Ok JNull
  else
    try_catch (poll_update_try client key isGroup clientJid pollUpdate)
      (fun err => Ok (poll_state pollUpdate [] (error_field err))).

(** *** [normalize] *)

(** What a call site passes for a parameter: a plain value or the client
    object.  [normalize] is declared [(contact, rawMessage, client)]; its two
    recursive calls pass [(envelope, client)]. *)
Inductive Arg : Type :=
| AVal (v : JV)
| AClient (c : Client).

(** [client.jidNormalizedUser(client.sock.user.id)]-style use of the third
    parameter: it must be the client object. *)
Definition as_client (client : Arg) : Res Client :=
  match client with
  | AClient c => Ok c
  | AVal v =>
      get v "jidNormalizedUser";;
      s ← get v "sock"; u ← get s "user"; get u "id";;
      Throw (TypeError "client.jidNormalizedUser is not a function")
  end.

(** An [async] function returning [v] settles like [v] when [v] is a promise. *)
Definition async_return (v : JV) : Res JV :=
  match v with
  | JPromise r _ => r
  | _ => Ok v
  end.

Section Body.

(** [this.normalize]: the function the body calls recursively. *)
Variable self : JV -> Arg -> Arg -> Res JV.

Definition normalize_body (contact : JV) (rawMessage client : Arg) : Res JV :=
  match rawMessage with
  | AClient _ =>
      (* a [Client] instance is truthy and has no [message] property *)
      Ok JNull
  | AVal raw =>
    if negb (truthy raw) || negb (truthy (opt_get raw "message")) then Ok JNull
    else
    message ← get raw "message";
    let editedMsgContent := opt_path message ["protocolMessage"; "editedMessage"] in
    if truthy editedMsgContent then
      protocolMessage ← get message "protocolMessage";
      originalKey ← get protocolMessage "key";
      pushName ← get raw "pushName";
      let normalizedEdit :=
        self (JObj [("key", originalKey); ("message", editedMsgContent); ("pushName", pushName)])
             client (AVal JUndef) in
      (* [normalizedEdit] is the promise of the call: truthy, and the two
         assignments land on the promise object *)
      id ← get originalKey "id";
      async_return (JPromise normalizedEdit [("isEdited", JBool true); ("id", id)])
    else
    keys ← object_keys message;
    let originalType := key_or_undef (head keys) in
    type ← _getFriendlyType message;
    messageContent ← get message (prop_key originalType);
    let contextInfo := or_else (opt_get messageContent "contextInfo")
                               (opt_get message "messageContextInfo") in
    c ← as_client client;
    sockUser ← get (sock c) "user";
    userId ← get sockUser "id";
    let clientJid := jidNormalizedUser c userId in
    key ← get raw "key";
    fromMe ← get key "fromMe";
    from ← (if truthy fromMe then Ok (JStr clientJid) else get contact "id");
    to ← (if truthy fromMe then get contact "id" else Ok (JStr clientJid));
    id ← get key "id";
    fromPushName ← (if truthy fromMe then get (user c) "name" else get contact "name");
    body ← _extractBody message;
    contacts ← _extractContacts message;
    let mentions := or_else (opt_get contextInfo "mentionedJid") (JArr []) in
    isMentioningMe ← includes mentions clientJid;
    interactiveReply ← _extractInteractiveReply message;
    reaction ← _extractReaction message;
    pollUpdate ← _extractPollUpdate raw c;
    poll ← _extractPollCreation raw;
    let isReply := truthy (opt_get contextInfo "quotedMessage") in
    let normalized :=
      [("id", id); ("chat", contact); ("fromMe", fromMe); ("from", from);
       ("fromPushName", fromPushName); ("to", to); ("type", JStr type); ("body", body);
       ("hasMedia", JBool false); ("media", JNull); ("location", JNull);
       ("contacts", contacts); ("isReply", JBool isReply); ("quotedMessage", JNull);
       ("isForwarded", to_bool (opt_get contextInfo "isForwarded"));
       ("forwardingScore", or_else (opt_get contextInfo "forwardingScore") (JNum 0));
       ("mentions", mentions); ("isMentioningMe", JBool isMentioningMe);
       ("isEdited", JBool false); ("interactiveReply", interactiveReply);
       ("reaction", reaction); ("pollUpdate", pollUpdate); ("poll", poll);
       ("timestamp", date_of_number (opt_get raw "messageTimestamp") 1000);
       ("raw", raw)] in
    normalized1 ← _enrichWithTypedData normalized raw;
    if isReply then
      chatId ← get contact "id";
      stanzaId ← get contextInfo "stanzaId";
      participant ← get contextInfo "participant";
      let quotedRaw :=
        JObj [("key", JObj [("remoteJid", chatId); ("id", stanzaId);
                            ("fromMe", JBool (String.eqb (jidNormalizedUser c participant) clientJid));
                            ("participant", participant)]);
              ("message", opt_get contextInfo "quotedMessage")] in
      (* no [await]: the field holds the promise of the recursive call *)
      Ok (JObj (set_field "quotedMessage" (JPromise (self quotedRaw client (AVal JUndef)) [])
                  normalized1))
    else Ok (JObj normalized1)
  end.

End Body.

(** The body unrolled [n] times over [base]. *)
Fixpoint normalize_n (n : nat) (base : JV -> Arg -> Arg -> Res JV) : JV -> Arg -> Arg -> Res JV :=
  match n with
  | O => base
  | S k => normalize_body (normalize_n k base)
  end.

(** Three unrollings reach no recursive call any more (see [normalize_n_stable]),
    so [normalize_args] is the function the source defines. *)
Definition normalize_args : JV -> Arg -> Arg -> Res JV :=
  normalize_n 3 (fun _ _ _ => Ok JUndef).

(** [MessageNormalizer.normalize(contact, rawMessage, client)] as the client
    calls it; the result is the outcome the returned promise settles with. *)
Definition normalize (contact rawMessage : JV) (client : Client) : Res JV :=
  normalize_args contact (AVal rawMessage) (AClient client).

End Normalizer.

(** ** The client's event handlers ([src/utils/generic-utils.js], [src/index.js]) *)

Module Lifecycle.
Import Js Normalizer.
Local Open Scope list_scope.

(** [ClientEvent] and [DisconnectReasons] *)
Module ClientEvent.
Definition INIT := "init".
Definition CONNECTING := "connecting".
Definition STATUS_CHANGE := "status_change".
Definition ERROR := "error".
Definition MESSAGE_RECEIVED := "message_received".
Definition MESSAGE_SENT := "message_sent".
Definition PAIRING_CODE := "pairing_code".
Definition PAIRING_SUCCESS := "pairing_success".
Definition DISCONNECTED := "disconnected".
Definition CONNECTED := "connected".
Definition BROADCAST_MESSAGE := "broadcast_message".
Definition NOTIFICATION := "notification".
End ClientEvent.

Module DisconnectReasons.
Definition MANUAL_DISCONNECT := "manual_disconnect".
Definition LOGGED_OUT := "logged_out".
Definition PAIRING_FAILED := "pairing_failed".
Definition CONNECTION_ERROR := "connection_error".
Definition RESTART_REQUIRED := "restart_required".
Definition UNAVAILABLE_SERVICE := "unavailable_service".
Definition UNKNOWN := "unknown".
End DisconnectReasons.

(** The transport library's [DisconnectReason] enumeration, of which the
    handler reads three members. *)
Record DisconnectReason : Type := mkDisconnectReason {
  restartRequired : Z;
  loggedOut : Z;
  unavailableService : Z
}.

(** The values the transport library gives them. *)
Definition transport_DisconnectReason : DisconnectReason :=
  {| restartRequired := 515; loggedOut := 401; unavailableService := 503 |}.

(** What a handler does to the outside, in order. *)
Inductive Action : Type :=
| Emit (event : string) (payload : JV)      (* this.emit(event, payload) *)
| Connect                                    (* this.connect() *)
| ClearInterval                              (* clearInterval(this.presenceSetInterval) *)
| RmSession (path : string)                  (* fs.rm(path, { recursive: true, force: true }) *)
| SetMessage (chatId message : JV).          (* this.store.setMessage(chatId, message) *)

(** The fields of the client the [close] branch reads and writes, and whether
    the session directory is on disk. *)
Record State : Type := mkState {
  manualDisconnect : bool;
  restartOnClose : bool;
  connected : bool;
  status : string;
  qrCode : JV;
  presenceSetInterval : bool;
  sessionPath : string;
  sessionDir : bool
}.

(** [new Boom(lastDisconnect?.error)]: its [output.statusCode] and [data]. *)
Record Boom : Type := mkBoom {
  output_statusCode : Z;
  data : JV
}.

Definition exn_value (e : Exn) : JV :=
  JObj [("name", JStr (exn_name e)); ("message", JStr (exn_message e));
        ("code", match exn_code e with Some c => JStr c | None => JUndef end)].

(** [boomError.data?.content?.[0]?.attrs?.type || boomError.data?.attrs?.type || 'unknown'] *)
Definition reasonType (boomError : Boom) : JV :=
  or_else (opt_path (data boomError) ["content"; "0"; "attrs"; "type"])
    (or_else (opt_path (data boomError) ["attrs"; "type"]) (JStr "unknown")).

Section Close.

Variable DR : DisconnectReason.

(** The [case 'close':] branch of the [connection.update] handler.  [update]
    is the event, [boomError] the wrapped [lastDisconnect?.error] and [rm] the
    outcome of [fs.rm] should it be called. *)
Definition on_close (st : State) (update : JV) (boomError : Boom) (rm : Res unit)
  : State * list Action :=
  let lastDisconnect := opt_get update "lastDisconnect" in
  let cleared := if presenceSetInterval st then [ClearInterval] else [] in
  let st1 := {| manualDisconnect := manualDisconnect st; restartOnClose := restartOnClose st;
                connected := false; status := status st; qrCode := JNull;
                presenceSetInterval := false; sessionPath := sessionPath st;
                sessionDir := sessionDir st |} in
  let statusCode := output_statusCode boomError in
  let reason := reasonType boomError in
  if statusCode =? restartRequired DR then (st1, cleared ++ [Connect])
  else
    let disconnectReason statusType reason details :=
      JObj [("statusCode", JNum statusCode); ("statusType", JStr statusType);
            ("reason", reason); ("details", details)] in
    let '(statusType, payload, purge, dir) :=
      if manualDisconnect st then
        (DisconnectReasons.MANUAL_DISCONNECT,
         disconnectReason DisconnectReasons.MANUAL_DISCONNECT reason lastDisconnect,
         [], sessionDir st)
      else if statusCode =? loggedOut DR then
        (DisconnectReasons.LOGGED_OUT,
         disconnectReason DisconnectReasons.LOGGED_OUT reason (data boomError),
         RmSession (sessionPath st) ::
           match rm with
           | Ok _ => []
           | Throw err => [Emit ClientEvent.ERROR (exn_value err)]
           end,
         match rm with Ok _ => false | Throw _ => sessionDir st end)
      else if statusCode =? 408 then
        (DisconnectReasons.PAIRING_FAILED,
         disconnectReason DisconnectReasons.PAIRING_FAILED (JStr "qr_read_attempts_ended")
           (data boomError),
         [], sessionDir st)
      else
        (DisconnectReasons.CONNECTION_ERROR,
         disconnectReason DisconnectReasons.CONNECTION_ERROR reason
           (opt_get lastDisconnect "error"),
         [], sessionDir st) in
    let st2 := {| manualDisconnect := manualDisconnect st; restartOnClose := restartOnClose st;
                  connected := false; status := ClientEvent.DISCONNECTED; qrCode := JNull;
                  presenceSetInterval := false; sessionPath := sessionPath st;
                  sessionDir := dir |} in
    let emitted := cleared ++ purge ++
                   [Emit ClientEvent.DISCONNECTED payload;
                    Emit ClientEvent.STATUS_CHANGE (JStr ClientEvent.DISCONNECTED)] in
    if statusCode =? unavailableService DR then (st2, emitted ++ [Connect])
    else if String.eqb statusType DisconnectReasons.CONNECTION_ERROR then
      (st2, emitted ++ [Emit ClientEvent.ERROR update] ++
            (if restartOnClose st then [Connect] else []))
    else (st2, emitted).

End Close.

(** The [disconnected] events of a trace, as (statusType, reason). *)
Definition classification (a : Action) : option (JV * JV) :=
  match a with
  | Emit ev payload =>
      if String.eqb ev ClientEvent.DISCONNECTED
      then Some (opt_get payload "statusType", opt_get payload "reason")
      else None
  | _ => None
  end.

Definition disconnect_events (trace : list Action) : list (JV * JV) :=
  omap classification trace.

(** *** [messages.upsert] *)

(** The methods of the [MessageStore] class. *)
Definition MessageStore_methods : list string :=
  ["_getFilePath"; "_loadMessages"; "_saveMessages"; "saveMessage"; "getMessage"; "getMessages"].

(** Whether the store object has a method of that name. *)
Definition store_has_method (s : Store) (name : string) : bool :=
  match s with
  | FileStore _ => bool_decide (name ∈ MessageStore_methods)
  | PluggedStore _ m =>
      String.eqb name "getMessage" || (String.eqb name "setMessage" && bool_decide (is_Some m))
  end.

(** [this.store.setMessage(chatId, message)] *)
Definition call_setMessage (s : Store) (chatId message : JV) : Res unit :=
  match s with
  | PluggedStore _ (Some setMessage) => setMessage chatId message
  | _ => Throw (TypeError "this.store.setMessage is not a function")
  end.

(** [this.contacts], the [ContactHandler]: its [contacts] map in insertion
    order, and what it asks of the transport: [users.getPnForLid(lid)], and
    [normalize(message)], which builds a contact from the profile, status,
    picture and group or newsletter metadata the transport answers with. *)
Record Contacts : Type := mkContacts {
  contacts_map : list (JV * JV);
  getPnForLid : JV -> Res JV;
  contacts_normalize : JV -> Res JV
}.

(** Key equality of a [Map] (objects are never the same object). *)
Definition same_key (a b : JV) : bool :=
  match a, b with
  | JNaN, JNaN => true
  | _, _ => strict_eq a b
  end.

Fixpoint map_get (k : JV) (m : list (JV * JV)) : option JV :=
  match m with
  | [] => None
  | (k', v) :: r => if same_key k k' then Some v else map_get k r
  end.

Fixpoint map_set (k v : JV) (m : list (JV * JV)) : list (JV * JV) :=
  match m with
  | [] => [(k, v)]
  | (k', x) :: r => if same_key k k' then (k', v) :: r else (k', x) :: map_set k v r
  end.

(** [ContactHandler.get(jid)] *)
Definition contacts_get (cs : Contacts) (jid : JV) : Res JV :=
  isLid ← endsWith jid "@lid";
  j ← (if isLid : bool then getPnForLid cs jid else Ok jid);
  match map_get j (contacts_map cs) with
  | Some contact => Ok contact
  | None => Ok JNull
  end.

(** [ContactHandler.set(jid, contact)] *)
Definition contacts_set (cs : Contacts) (jid contact : JV) : Contacts :=
  {| contacts_map := map_set jid contact (contacts_map cs);
     getPnForLid := getPnForLid cs;
     contacts_normalize := contacts_normalize cs |}.

(** [m == 'status@broadcast'] *)
Definition loose_eq_string (v : JV) (s : string) : bool :=
  match v with
  | JStr x => String.eqb x s
  | JArr [JStr x] => String.eqb x s
  | _ => false
  end.

(** The part of the handler that runs once the chat's contact is known. *)
Definition dispatch_message (client : Client) (type msg key remoteJid contact : JV)
  : Res (list Action) :=
  if truthy (opt_get msg "broadcast") || loose_eq_string remoteJid "status@broadcast" then
    Ok [Emit ClientEvent.BROADCAST_MESSAGE msg]
  else
    nmsg ← normalize contact msg client;
    stored ← (if truthy nmsg && store_has_method (store client) "setMessage" then
                chatId ← get nmsg "chatId";
                call_setMessage (store client) chatId nmsg;;
                Ok [SetMessage chatId nmsg]
              else Ok []);
    if strict_eq type (JStr "append") then
      Ok (stored ++ [Emit ClientEvent.MESSAGE_SENT nmsg])
    else if strict_eq type (JStr "notify") then
      fromMe ← get key "fromMe";
      Ok (stored ++ [Emit (if truthy fromMe then ClientEvent.MESSAGE_SENT
                           else ClientEvent.MESSAGE_RECEIVED) nmsg])
    else Ok (stored ++ [Emit ClientEvent.NOTIFICATION nmsg]).

(** The [messages.upsert] handler: the contact directory it leaves and the
    actions it performs.  Whatever is thrown inside is caught and emitted as
    an [error] event. *)
Definition on_messages_upsert (contacts : Contacts) (client : Client) (event : JV)
  : Contacts * list Action :=
  let failed (cs : Contacts) (error : Exn) :=
    (cs, [Emit ClientEvent.ERROR (JObj [("error", exn_value error); ("event", event)])]) in
  let finish (cs : Contacts) (r : Res (list Action)) :=
    match r with
    | Ok actions => (cs, actions)
    | Throw error => failed cs error
    end in
  let type := opt_get event "type" in
  match (messages ← get event "messages"; msg ← get messages "0";
         message ← get msg "message"; Ok (msg, message)) with
  | Throw error => failed contacts error
  | Ok (msg, message) =>
      if negb (truthy message) || truthy (opt_get message "protocolMessage") then
        (contacts, [Emit ClientEvent.NOTIFICATION msg])
      else
        match (key ← get msg "key"; remoteJid ← get key "remoteJid";
               cached ← contacts_get contacts remoteJid; Ok (key, remoteJid, cached)) with
        | Throw error => failed contacts error
        | Ok (key, remoteJid, cached) =>
            if truthy cached then
              finish contacts (dispatch_message client type msg key remoteJid cached)
            else
              match (contact ← contacts_normalize contacts msg;
                     id ← get contact "id"; Ok (contact, id)) with
              | Throw error => failed contacts error
              | Ok (contact, id) =>
                  finish (contacts_set contacts id contact)
                         (dispatch_message client type msg key remoteJid contact)
              end
        end
  end.

End Lifecycle.

Import Js.
Import Normalizer.

(** * Vocabulary of the properties *)

(** The properties [JSON.stringify] writes for an object. *)
Definition stringify_fields : list (string * JV) -> list (string * Json) :=
  fix fields (fs : list (string * JV)) : list (string * Json) :=
    match fs with
    | [] => []
    | (k, x) :: r =>
        match stringify x with
        | Some j => (k, j) :: fields r
        | None => fields r
        end
    end.

(** [JSON.parse(JSON.stringify(v))] *)
Definition json_image (v : JV) : JV :=
  match stringify v with
  | Some j => of_json j
  | None => JUndef
  end.

(** *** Message store *)

(** The chat file is missing, unreadable, or holds a text that is not JSON. *)
Definition corrupt (st : MessageStore.t) (chatId : JV) : Prop :=
  match MessageStore.disk st !! MessageStore._getFilePath st chatId with
  | Some (MessageStore.Text (Some _)) => False
  | _ => True
  end.

(** A message record: an object whose [id] is the string [s]. *)
Definition is_message (m : JV) (s : string) : Prop :=
  exists fs, m = JObj fs /\ lookup_field "id" fs = JStr s.

(** The records [_loadMessages] reads for a chat. *)
Definition records (st : MessageStore.t) (chatId : JV) : list JV :=
  match MessageStore._loadMessages st chatId with
  | Ok (JArr xs) => xs
  | _ => []
  end.

(** How many of the records carry the id [s]. *)
Fixpoint count_id (s : string) (xs : list JV) : nat :=
  match xs with
  | [] => 0
  | x :: r => (if strict_eq (opt_get x "id") (JStr s) then 1 else 0) + count_id s r
  end.

(** A record with that id is stored: [getMessage] finds one. *)
Definition stored (st : MessageStore.t) (chatId : JV) (s : string) : Prop :=
  exists r, MessageStore.getMessage st chatId (JStr s) = Ok r /\ truthy r = true.

(** The stores [saveMessage] builds, starting from an empty directory. *)
Inductive built : MessageStore.t -> Prop :=
| built_create (base : string) : built (MessageStore.create base ∅)
| built_save (st st' : MessageStore.t) (chatId m : JV) (s : string) :
    built st -> is_message m s -> MessageStore.saveMessage st chatId m = Ok st' -> built st'.

(** The id of a JSON record. *)
Definition json_id (j : Json) : option string :=
  match j with
  | JsObj fs =>
      match lookup_field "id" (map (fun kv => (fst kv, of_json (snd kv))) fs) with
      | JStr s => Some s
      | _ => None
      end
  | _ => None
  end.

(** Every chat file holds an array of records with pairwise different ids. *)
Definition unique_ids (st : MessageStore.t) : Prop :=
  forall path f, MessageStore.disk st !! path = Some f ->
    exists js, f = MessageStore.Text (Some (JsArr js)) /\
               Forall (fun j => is_Some (json_id j)) js /\
               NoDup (map json_id js).

(** The JSON records of a chat file. *)
Definition file_records (st : MessageStore.t) (chatId : JV) : list Json :=
  match MessageStore.disk st !! MessageStore._getFilePath st chatId with
  | Some (MessageStore.Text (Some (JsArr js))) => js
  | _ => []
  end.

(** *** Poll votes *)

(** An envelope that reaches the [try] block of [_extractPollUpdate]: its
    key names the chat, the client has its user, and the message is a
    [pollUpdateMessage] naming the poll-creation message. *)
Definition is_poll_update (msg : JV) (client : Client) : Prop :=
  (exists jid, opt_path msg ["key"; "remoteJid"] = JStr jid) /\
  nullish (opt_get (sock client) "user") = false /\
  truthy (opt_path msg ["message"; "pollUpdateMessage"; "pollCreationMessageKey"]) = true.

(** The lookup of the poll-creation message the vote refers to. *)
Definition creation_lookup (msg : JV) (client : Client) : Res JV :=
  let creationKey := opt_path msg ["message"; "pollUpdateMessage"; "pollCreationMessageKey"] in
  store_getMessage (store client) (opt_get creationKey "remoteJid") (opt_get creationKey "id").

(** The creation record has the poll, its secret, its name and its options. *)
Definition complete_record (creationMsg : JV) : bool :=
  let rawMessage := opt_path creationMsg ["raw"; "message"] in
  let poll := or_else (opt_get rawMessage "pollCreationMessage")
                      (opt_get rawMessage "pollCreationMessageV3") in
  truthy poll
  && truthy (opt_path rawMessage ["messageContextInfo"; "messageSecret"])
  && truthy (opt_get poll "name")
  && truthy (opt_get poll "options").

(** A degraded PollState: no selected option and a non-empty error reason. *)
Definition degraded (msg : JV) (r : Res JV) : Prop :=
  exists reason rest,
    reason <> "" /\
    r = Ok (poll_state (opt_path msg ["message"; "pollUpdateMessage"]) []
              (("error", JStr reason) :: rest)).

(** *** Sample data *)

(** The parts of [s] before and after the first [c]. *)
Fixpoint split_at (c : ascii) (s : string) : option (string * string) :=
  match s with
  | EmptyString => None
  | String a r =>
      if Ascii.eqb a c then Some (EmptyString, r)
      else match split_at c r with
           | Some (before, after) => Some (String a before, after)
           | None => None
           end
  end.

(** The transport's [jidNormalizedUser]: the user part of the JID up to the
    device or agent separator, followed by the server. *)
Definition transport_jidNormalizedUser (jid : JV) : string :=
  match jid with
  | JStr s =>
      match split_at "@" s with
      | Some (userCombined, server) =>
          take_while (fun c => negb (Ascii.eqb c ":" || Ascii.eqb c "_")) userCombined
          ++ "@" ++ (if String.eqb server "c.us" then "s.whatsapp.net" else server)
      | None => ""
      end
  | _ => ""
  end.

Definition failed_decryption : Exn :=
  {| exn_name := "Error"; exn_message := "Unsupported state or unable to authenticate data";
     exn_code := None |}.

Definition sample_user : JV :=
  JObj [("id", JStr "5511888:7@s.whatsapp.net"); ("name", JStr "Me")].

(** A connected client over the store [s]; its decryption rejects every vote. *)
Definition client_with (s : Store) : Client :=
  {| sock := JObj [("user", sample_user)];
     user := sample_user;
     store := s;
     jidNormalizedUser := transport_jidNormalizedUser;
     decryptPollVote := fun _ _ => Throw failed_decryption;
     buffer_hex := fun _ => Ok "";
     sha256_hex := fun _ => Ok "" |}.

(** A fresh session: the default store over an empty directory. *)
Definition store0 : MessageStore.t := MessageStore.create ".baileys/sessions/main" ∅.
Definition client0 : Client := client_with (FileStore store0).

Definition chat0 : string := "5511999@s.whatsapp.net".
Definition contact0 : JV := JObj [("id", JStr chat0); ("name", JStr "Ana"); ("type", JStr "personal")].

Definition key_of (id : string) (fromMe : bool) : JV :=
  JObj [("remoteJid", JStr chat0); ("id", JStr id); ("fromMe", JBool fromMe)].

Definition envelope (id : string) (fromMe : bool) (message : JV) (seconds : Z) : JV :=
  JObj [("key", key_of id fromMe); ("message", message);
        ("messageTimestamp", JNum seconds); ("pushName", JStr "Ana")].

Definition text_envelope : JV :=
  envelope "MSG1" false (JObj [("conversation", JStr "Ola!")]) 1700000000.

(** A vote on the poll POLL1, which is not in the store. *)
Definition vote_envelope : JV :=
  envelope "VOTE1" false
    (JObj [("pollUpdateMessage",
            JObj [("pollCreationMessageKey", key_of "POLL1" true);
                  ("vote", JObj [("encPayload", JStr "c2VjcmV0"); ("encIv", JStr "aXY=")]);
                  ("senderTimestampMs", JNum 1700000003000)])])
    1700000003.

(** A poll-creation record as the store keeps it, without its message secret. *)
Definition poll_record_without_secret : JV :=
  JObj [("id", JStr "POLL1");
        ("raw", JObj [("key", key_of "POLL1" true);
                      ("message",
                       JObj [("pollCreationMessage",
                              JObj [("name", JStr "Lunch?");
                                    ("options", JArr [JObj [("optionName", JStr "Pizza")];
                                                      JObj [("optionName", JStr "Sushi")]])]);
                             ("messageContextInfo", JObj [])])])].

(** The poll-creation record with its secret, and a client whose transport
    decrypts the vote to the digest of the second option. *)
Definition poll_record : JV :=
  JObj [("id", JStr "POLL1");
        ("raw", JObj [("key", key_of "POLL1" true);
                      ("message",
                       JObj [("pollCreationMessage",
                              JObj [("name", JStr "Lunch?");
                                    ("options", JArr [JObj [("optionName", JStr "Pizza")];
                                                      JObj [("optionName", JStr "Sushi")]])]);
                             ("messageContextInfo",
                              JObj [("messageSecret", JObj [("0", JNum 17); ("1", JNum 42)])])])])].

Definition sample_digest (name : JV) : Res string :=
  match name with
  | JStr "Pizza" => Ok "5A1B"
  | JStr "Sushi" => Ok "C0DE"
  | JStr _ => Ok "0000"
  | _ => Throw (TypeError "The first argument must be of type string")
  end.

Definition voting_client : Client :=
  {| sock := JObj [("user", sample_user)];
     user := sample_user;
     store := PluggedStore (fun _ _ => Ok poll_record) None;
     jidNormalizedUser := transport_jidNormalizedUser;
     decryptPollVote := fun _ _ => Ok (JObj [("selectedOptions", JArr [JStr "C0DE"])]);
     buffer_hex := fun h => match h with JStr s => Ok s | _ => Ok "" end;
     sha256_hex := sample_digest |}.

(** The store after the poll-creation record was saved for its chat. *)
Definition store1 : MessageStore.t :=
  match MessageStore.saveMessage store0 (JStr chat0) poll_record_without_secret with
  | Ok st => st
  | Throw _ => store0
  end.
Definition client1 : Client := client_with (FileStore store1).

(** An edit of MSG1: a protocol message wrapping the replacement text. *)
Definition edit_envelope : JV :=
  envelope "EDIT1" false
    (JObj [("protocolMessage",
            JObj [("key", key_of "MSG1" false); ("type", JNum 14);
                  ("editedMessage", JObj [("conversation", JStr "Ola, tudo bem?")])])])
    1700000001.

(** A reply quoting MSG1. *)
Definition reply_envelope : JV :=
  envelope "MSG2" false
    (JObj [("extendedTextMessage",
            JObj [("text", JStr "Sim");
                  ("contextInfo",
                   JObj [("stanzaId", JStr "MSG1");
                         ("participant", JStr "5511888@s.whatsapp.net");
                         ("quotedMessage", JObj [("conversation", JStr "Ola!")])])])])
    1700000002.

(** A protocol envelope: the revocation of MSG1. *)
Definition revoke_envelope : JV :=
  envelope "REV1" false
    (JObj [("protocolMessage", JObj [("key", key_of "MSG1" false); ("type", JNum 0)])])
    1700000004.

(** An interactive message whose button list is empty. *)
Definition empty_buttons_message : JV :=
  JObj [("interactiveMessage", JObj [("interactiveButtons", JArr [])])].

(** The envelope the edit branch of [normalize] builds for its recursive call. *)
Definition edited_inner_envelope : JV :=
  JObj [("key", key_of "MSG1" false);
        ("message", JObj [("conversation", JStr "Ola, tudo bem?")]);
        ("pushName", JStr "Ana")].

(** *** Type classification *)

(** The first button of the interactive message can be read: there is no
    button list, or its first entry is an object. *)
Definition first_button_readable (message : JV) : Prop :=
  let buttons := opt_path message ["interactiveMessage"; "interactiveButtons"] in
  truthy buttons = false \/ nullish (opt_get buttons "0") = false.

(** *** Lifecycle samples *)

(** A connected session with its heartbeat armed. *)
Definition connected_state : Lifecycle.State :=
  {| Lifecycle.manualDisconnect := false; Lifecycle.restartOnClose := false;
     Lifecycle.connected := true; Lifecycle.status := "connected";
     Lifecycle.qrCode := JNull; Lifecycle.presenceSetInterval := true;
     Lifecycle.sessionPath := ".baileys/sessions/main"; Lifecycle.sessionDir := true |}.

(** The transport closed the channel with status 401 (logged out). *)
Definition logged_out_boom : Lifecycle.Boom :=
  {| Lifecycle.output_statusCode := 401;
     Lifecycle.data := JObj [("attrs", JObj [("type", JStr "device_removed")])] |}.

Definition close_update : JV :=
  JObj [("connection", JStr "close");
        ("lastDisconnect", JObj [("error", JObj [("message", JStr "Connection Failure")])])].

(** The contact directory already knows the chat. *)
Definition contacts0 : Lifecycle.Contacts :=
  {| Lifecycle.contacts_map := [(JStr chat0, contact0)];
     Lifecycle.getPnForLid := fun _ => Ok JUndef;
     Lifecycle.contacts_normalize := fun _ => Ok contact0 |}.

Definition upsert_event : JV :=
  JObj [("messages", JArr [text_envelope]); ("type", JStr "notify")].

(** No action of the trace writes to the store. *)
Definition never_stores (trace : list Lifecycle.Action) : Prop :=
  Forall (fun a => forall chatId message, a <> Lifecycle.SetMessage chatId message) trace.

(** A trace of the [messages.upsert] handler: one event, preceded by the
    store write of the same message when there is one. *)
Definition write_then_emit (trace : list Lifecycle.Action) : Prop :=
  (exists ev payload, trace = [Lifecycle.Emit ev payload]) \/
  (exists chatId nmsg ev,
     trace = [Lifecycle.SetMessage chatId nmsg; Lifecycle.Emit ev nmsg]).

(** *** Store samples *)

(** A store whose chat file holds a text that is not JSON. *)
Definition corrupt_store : MessageStore.t :=
  MessageStore.mkStore "data/message_store"
    {[ "data/message_store/5511999@s.whatsapp.net.json" := MessageStore.Text None ]}.

Definition text_record : JV :=
  JObj [("id", JStr "MSG1"); ("body", JStr "Ola!"); ("fromMe", JBool false)].

(** Another message under the same id. *)
Definition text_record_resent : JV :=
  JObj [("id", JStr "MSG1"); ("body", JStr "Ola de novo!"); ("fromMe", JBool false)].

(** The store after [text_record] was saved. *)
Definition store2 : MessageStore.t :=
  match MessageStore.saveMessage store0 (JStr chat0) text_record with
  | Ok st => st
  | Throw _ => store0
  end.

Definition image_content : JV :=
  JObj [("imageMessage",
         JObj [("mimetype", JStr "image/jpeg"); ("caption", JStr "Foto");
               ("directPath", JStr "/v/t62.7118-24/1")])].

Definition image_envelope : JV := envelope "IMG1" false image_content 1700000000.

(** The canonical message [normalize] makes of the image envelope. *)
Definition image_message : JV :=
  match normalize contact0 image_envelope client0 with
  | Ok m => m
  | Throw _ => JUndef
  end.



(** * Properties *)

(** ** Dates *)

Example iso_epoch : toISOString 0 = "1970-01-01T00:00:00.000Z".
Proof. reflexivity. Qed.
Example iso_2023 : toISOString 1700000000000 = "2023-11-14T22:13:20.000Z".
Proof. vm_compute. reflexivity. Qed.
Example iso_neg : toISOString (-1) = "1969-12-31T23:59:59.999Z".
Proof. vm_compute. reflexivity. Qed.
Example parse_2023 : Date_parse "2023-11-14T22:13:20.000Z" = Some 1700000000000.
Proof. vm_compute. reflexivity. Qed.
Example parse_leap : Date_parse (toISOString 951782400123) = Some 951782400123.
Proof. vm_compute. reflexivity. Qed.


(** ** The result monad *)

Lemma bind_Ok {A B : Type} (m : Res A) (k : A -> Res B) (b : B) :
  m ≫= k = Ok b -> exists a, m = Ok a /\ k a = Ok b.
Proof. destruct m as [a|e]; simpl; [eauto | discriminate]. Qed.

Lemma get_truthy_Ok (v : JV) (k : string) :
  nullish v = false -> get v k = Ok (opt_get v k).
Proof. unfold opt_get. destruct v; simpl; try discriminate; intros _; repeat case_match; reflexivity. Qed.

Lemma truthy_not_nullish (v : JV) : truthy v = true -> nullish v = false.
Proof. destruct v; simpl; congruence. Qed.

(** A failed property read carries a message. *)
Lemma get_Throw_message (v : JV) (k : string) (e : Exn) :
  get v k = Throw e -> exn_message e <> "".
Proof.
  destruct v; simpl; intros H; repeat case_match; try discriminate;
    injection H as <-; simpl; destruct k; discriminate.
Qed.

(** ** [normalize] is well defined *)

(** Walks down two copies of a body that differ in the recursive call only. *)
Ltac walk_body H :=
  repeat (cbv beta iota;
          lazymatch goal with
          | |- match ?x with _ => _ end = _ => destruct x
          | |- _ => first [reflexivity | rewrite H; reflexivity]
          end).

Lemma normalize_body_ext (f g : JV -> Arg -> Arg -> Res JV) (contact : JV) (raw client : Arg) :
  (forall x, f x client (AVal JUndef) = g x client (AVal JUndef)) ->
  normalize_body f contact raw client = normalize_body g contact raw client.
Proof.
  intros H. unfold normalize_body. cbv beta iota delta [mbind res_bind bind].
  walk_body H.
Qed.

Lemma normalize_body_undef (f : JV -> Arg -> Arg -> Res JV) (contact : JV) (client : Arg) :
  normalize_body f contact (AVal JUndef) client = Ok JNull.
Proof. reflexivity. Qed.

(** The recursive calls pass [undefined] for [client]; two levels down the
    envelope is [undefined] too and the call returns at its first line. *)
Lemma normalize_n_stable (n : nat) (base base' : JV -> Arg -> Arg -> Res JV)
    (contact : JV) (raw client : Arg) :
  normalize_n (3 + n) base contact raw client = normalize_n 3 base' contact raw client.
Proof.
  simpl. apply normalize_body_ext. intros x.
  apply normalize_body_ext. intros y.
  apply normalize_body_undef.
Qed.

(** [normalize_args] satisfies the recursive definition of the source. *)
Lemma normalize_args_unfold (contact : JV) (raw client : Arg) :
  normalize_args contact raw client = normalize_body normalize_args contact raw client.
Proof.
  unfold normalize_args at 1.
  rewrite <- (normalize_n_stable 1 (fun _ _ _ => Ok JUndef)). reflexivity.
Qed.

(** A recursive call made by [normalize(contact, rawMessage, client)] gets the
    client object where the envelope is expected, and returns [null]. *)
Lemma normalize_args_client (x : JV) (c : Client) (a : Arg) :
  normalize_args x (AClient c) a = Ok JNull.
Proof. reflexivity. Qed.

Lemma normalize_unfold (contact raw : JV) (c : Client) :
  normalize contact raw c =
  normalize_body (fun _ _ _ => Ok JNull) contact (AVal raw) (AClient c).
Proof.
  unfold normalize. rewrite normalize_args_unfold.
  apply normalize_body_ext. intros x. apply normalize_args_client.
Qed.

(** ** JSON round trip *)



Lemma stringify_JObj (fs : list (string * JV)) :
  stringify (JObj fs) = Some (JsObj (stringify_fields fs)).
Proof. reflexivity. Qed.


(** Writing a parsed JSON value gives back the JSON it was parsed from. *)
Lemma stringify_of_json (j : Json) : stringify (of_json j) = Some j.
Proof.
  induction j using Json_nested_ind; try reflexivity.
  - simpl. do 2 f_equal. induction H as [|x r Hx _ IH]; simpl; [reflexivity|].
    rewrite Hx. simpl. f_equal. exact IH.
  - cbn [of_json]. rewrite stringify_JObj. do 2 f_equal.
    induction H as [|[k x] r Hx _ IH]; simpl in *; [reflexivity|].
    rewrite Hx. f_equal. exact IH.
Qed.

Lemma json_image_of_json (j : Json) : json_image (of_json j) = of_json j.
Proof. unfold json_image. rewrite stringify_of_json. reflexivity. Qed.

Lemma of_json_not_undef (j : Json) : of_json j <> JUndef.
Proof. destruct j; discriminate. Qed.

Lemma stringify_of_json_list (js : list Json) :
  map (fun x => default JsNull (stringify x)) (map of_json js) = js.
Proof.
  induction js as [|j r IH]; simpl; [reflexivity|].
  rewrite stringify_of_json. simpl. f_equal. exact IH.
Qed.

(** A property holding JSON data keeps its place and value. *)
Lemma lookup_stringify_fields (k : string) (fs : list (string * JV)) (j : Json) :
  stringify (lookup_field k fs) = Some j ->
  lookup_field k (map (fun kv => (fst kv, of_json (snd kv))) (stringify_fields fs)) = of_json j.
Proof.
  induction fs as [|[k' x] r IH]; simpl; [discriminate|].
  destruct (String.eqb k k') eqn:E.
  - intros ->. simpl. rewrite E. reflexivity.
  - intros H. destruct (stringify x); simpl; [rewrite E|]; auto.
Qed.

(** ** The message store *)

Lemma loadMessages_cases (st : MessageStore.t) (chatId : JV) :
  (corrupt st chatId /\ MessageStore._loadMessages st chatId = Ok (JArr [])) \/
  (exists j, MessageStore.disk st !! MessageStore._getFilePath st chatId
               = Some (MessageStore.Text (Some j)) /\
             MessageStore._loadMessages st chatId = Ok (or_else (of_json j) (JArr []))).
Proof.
  unfold corrupt, MessageStore._loadMessages, MessageStore.existsSync, MessageStore.readFileSync.
  destruct (MessageStore.disk st !! MessageStore._getFilePath st chatId) as [[|[j|]]|] eqn:E;
    simpl; eauto.
Qed.

(** [_loadMessages] never throws. *)
Lemma loadMessages_total (st : MessageStore.t) (chatId : JV) :
  exists v, MessageStore._loadMessages st chatId = Ok v.
Proof. destruct (loadMessages_cases st chatId) as [[_ H]|[j [_ H]]]; eauto. Qed.

(** C10: for every chat whose file is missing, unreadable or not JSON,
    [_loadMessages] returns the empty list without throwing, so [getMessage]
    returns [undefined] and [getMessages] an empty sequence. *)
Theorem corrupt_store_reads_empty (st : MessageStore.t) (chatId : JV) :
  corrupt st chatId ->
  MessageStore._loadMessages st chatId = Ok (JArr []) /\
  (forall id, MessageStore.getMessage st chatId id = Ok JUndef) /\
  (forall opts, opts <> JNull -> MessageStore.getMessages st chatId opts = Ok (JArr [])).
Proof.
  intros Hc.
  assert (Hl : MessageStore._loadMessages st chatId = Ok (JArr [])).
  { destruct (loadMessages_cases st chatId) as [[_ H]|[j [E _]]]; [exact H|].
    unfold corrupt in Hc. rewrite E in Hc. contradiction. }
  split; [exact Hl|]. split.
  - intros id. unfold MessageStore.getMessage. rewrite Hl. reflexivity.
  - intros opts Hn. unfold MessageStore.getMessages.
    assert (Ho : exists o, (match opts with
                            | JUndef => Ok (JObj [])
                            | JNull => Throw (TypeError "Cannot destructure property 'from' of 'object null' as it is null.")
                            | o => Ok o
                            end) = Ok o) by (destruct opts; eauto; congruence).
    destruct Ho as [o ->]. simpl. rewrite Hl. simpl.
    destruct (truthy (opt_get o "from") || truthy (opt_get o "to")); simpl;
      destruct (truthy (opt_get o "limit")); simpl; rewrite ?drop_nil; reflexivity.
Qed.

Lemma corrupt_store_reads_empty_witness :
  corrupt corrupt_store (JStr "5511999@s.whatsapp.net") /\
  MessageStore.getMessage corrupt_store (JStr "5511999@s.whatsapp.net") (JStr "MSG1") = Ok JUndef.
Proof.
  assert (H : corrupt corrupt_store (JStr "5511999@s.whatsapp.net")) by (vm_compute; exact I).
  split; [exact H|].
  apply (corrupt_store_reads_empty corrupt_store (JStr "5511999@s.whatsapp.net") H).
Defined.

Lemma find_elem_ext (p q : JV -> Res bool) (xs : list JV) :
  (forall x, p x = q x) -> MessageStore.find_elem p xs = MessageStore.find_elem q xs.
Proof.
  intros H. induction xs as [|x r IH]; simpl; [reflexivity|].
  rewrite H, IH. reflexivity.
Qed.

Lemma same_id_has_id (m id : JV) (xs : list JV) :
  get m "id" = Ok id ->
  MessageStore.find_elem (MessageStore.same_id m) xs
  = MessageStore.find_elem (MessageStore.has_id id) xs.
Proof.
  intros H. apply find_elem_ext. intros x.
  unfold MessageStore.same_id, MessageStore.has_id. rewrite H.
  destruct (get x "id"); reflexivity.
Qed.

Lemma is_message_get (m : JV) (s : string) : is_message m s -> get m "id" = Ok (JStr s).
Proof. intros (fs & -> & H). simpl. rewrite H. reflexivity. Qed.

Lemma has_id_record (j : Json) (s' s : string) :
  json_id j = Some s' -> MessageStore.has_id (JStr s) (of_json j) = Ok (String.eqb s' s).
Proof.
  unfold json_id, MessageStore.has_id. destruct j; try discriminate. simpl.
  destruct (lookup_field "id" _); try discriminate. intros [= ->]. reflexivity.
Qed.

Lemma find_absent (s : string) (js : list Json) :
  Forall (fun j => is_Some (json_id j)) js -> Some s ∉ map json_id js ->
  MessageStore.find_elem (MessageStore.has_id (JStr s)) (map of_json js) = Ok JUndef.
Proof.
  induction 1 as [|j r [s' Hj] _ IH]; simpl; [reflexivity|].
  intros Hn. rewrite (has_id_record j s' s Hj). simpl.
  destruct (String.eqb_spec s' s) as [->|_].
  - exfalso. apply Hn. rewrite Hj. left.
  - apply IH. intros Hin. apply Hn. right. exact Hin.
Qed.

Lemma find_present (s : string) (js : list Json) :
  Forall (fun j => is_Some (json_id j)) js -> Some s ∈ map json_id js ->
  exists j, json_id j = Some s /\
    MessageStore.find_elem (MessageStore.has_id (JStr s)) (map of_json js) = Ok (of_json j).
Proof.
  induction 1 as [|j r [s' Hj] _ IH]; simpl; intros Hin.
  - inversion Hin.
  - rewrite (has_id_record j s' s Hj). simpl.
    destruct (String.eqb_spec s' s) as [->|Hne]; [eauto|].
    apply IH. rewrite Hj in Hin. apply elem_of_cons in Hin as [[= ->]|Hin]; [contradiction|exact Hin].
Qed.

Lemma record_truthy (j : Json) (s : string) : json_id j = Some s -> truthy (of_json j) = true.
Proof. destruct j; simpl; try discriminate. reflexivity. Qed.

Lemma count_id_absent (s : string) (js : list Json) :
  Forall (fun j => is_Some (json_id j)) js -> Some s ∉ map json_id js ->
  count_id s (map of_json js) = 0%nat.
Proof.
  induction 1 as [|j r [s' Hj] _ IH]; simpl; [reflexivity|]. intros Hn.
  assert (Hg := has_id_record j s' s Hj). unfold MessageStore.has_id in Hg.
  unfold opt_get. destruct (get (of_json j) "id") as [v|]; [|discriminate].
  simpl in Hg. injection Hg as ->.
  destruct (String.eqb_spec s' s) as [->|_].
  - exfalso. apply Hn. rewrite Hj. left.
  - simpl. apply IH. intros Hin. apply Hn. right. exact Hin.
Qed.

Lemma count_id_unique (s : string) (js : list Json) :
  Forall (fun j => is_Some (json_id j)) js -> NoDup (map json_id js) ->
  Some s ∈ map json_id js -> count_id s (map of_json js) = 1%nat.
Proof.
  induction 1 as [|j r [s' Hj] Hr IH]; simpl; intros Hnd Hin.
  - inversion Hin.
  - apply NoDup_cons in Hnd as [Hnotin Hnd].
    assert (Hg := has_id_record j s' s Hj). unfold MessageStore.has_id in Hg.
    unfold opt_get. destruct (get (of_json j) "id") as [v|]; [|discriminate].
    simpl in Hg. injection Hg as ->.
    destruct (String.eqb_spec s' s) as [->|Hne].
    + rewrite count_id_absent; [reflexivity|exact Hr|]. rewrite <- Hj. exact Hnotin.
    + simpl. apply IH; [exact Hnd|].
      rewrite Hj in Hin. apply elem_of_cons in Hin as [[= ->]|Hin]; [contradiction|exact Hin].
Qed.

Lemma message_json (fs : list (string * JV)) (s : string) :
  lookup_field "id" fs = JStr s -> json_id (JsObj (stringify_fields fs)) = Some s.
Proof.
  intros H. unfold json_id.
  rewrite (lookup_stringify_fields "id" fs (JsStr s)); [reflexivity|].
  rewrite H. reflexivity.
Qed.

(** Under [unique_ids] a chat loads as the array of its JSON records. *)
Lemma unique_ids_load (st : MessageStore.t) (chatId : JV) :
  unique_ids st ->
  MessageStore._loadMessages st chatId = Ok (JArr (map of_json (file_records st chatId))) /\
  Forall (fun j => is_Some (json_id j)) (file_records st chatId) /\
  NoDup (map json_id (file_records st chatId)).
Proof.
  intros Hu. unfold file_records.
  destruct (loadMessages_cases st chatId) as [[Hc H]|[j [E H]]].
  - unfold corrupt in Hc. rewrite H.
    destruct (MessageStore.disk st !! MessageStore._getFilePath st chatId) as [[|[j|]]|];
      try contradiction; repeat split; simpl; constructor.
  - rewrite E. destruct (Hu _ _ E) as (js & [= ->] & Hf & Hn). rewrite H. auto.
Qed.

(** What [saveMessage] does on a store with unique ids: nothing when the id
    is there, else it appends the JSON form of the message to the chat file. *)
Lemma saveMessage_spec (st : MessageStore.t) (chatId : JV) (fs : list (string * JV)) (s : string) :
  unique_ids st -> lookup_field "id" fs = JStr s ->
  MessageStore.saveMessage st chatId (JObj fs) =
    Ok (if bool_decide (Some s ∈ map json_id (file_records st chatId)) then st
        else MessageStore.mkStore (MessageStore.basePath st)
               (<[MessageStore._getFilePath st chatId :=
                    MessageStore.Text (Some (JsArr (file_records st chatId ++
                                                    [JsObj (stringify_fields fs)])))]>
                  (MessageStore.disk st))).
Proof.
  intros Hu Hid. destruct (unique_ids_load st chatId Hu) as (Hl & Hf & Hn).
  unfold MessageStore.saveMessage. rewrite Hl. simpl.
  rewrite (same_id_has_id (JObj fs) (JStr s)) by (simpl; rewrite Hid; reflexivity).
  case_bool_decide as Hin.
  - destruct (find_present s _ Hf Hin) as (j & Hj & ->). simpl.
    rewrite (record_truthy j s Hj). reflexivity.
  - rewrite (find_absent s _ Hf Hin). simpl.
    unfold MessageStore._saveMessages. simpl.
    rewrite map_app, stringify_of_json_list. reflexivity.
Qed.

Lemma saveMessage_unique_ids (st st' : MessageStore.t) (chatId m : JV) (s : string) :
  unique_ids st -> is_message m s -> MessageStore.saveMessage st chatId m = Ok st' ->
  unique_ids st'.
Proof.
  intros Hu (fs & -> & Hid) Hs. rewrite (saveMessage_spec st chatId fs s Hu Hid) in Hs.
  injection Hs as <-. case_bool_decide as Hin; [exact Hu|].
  destruct (unique_ids_load st chatId Hu) as (_ & Hf & Hn).
  intros path f. simpl. destruct (decide (MessageStore._getFilePath st chatId = path)) as [<-|Hne].
  - rewrite lookup_insert_eq. intros [= <-]. eexists. split; [reflexivity|]. split.
    + apply Forall_app. split; [exact Hf|]. constructor; [|constructor].
      rewrite (message_json fs s Hid). eauto.
    + rewrite map_app. apply NoDup_app. split; [exact Hn|]. split.
      * intros x Hx Hx'. cbn [map] in Hx'. rewrite (message_json fs s Hid) in Hx'.
        apply list_elem_of_singleton in Hx' as ->. contradiction.
      * apply NoDup_singleton.
  - rewrite lookup_insert_ne by exact Hne. apply Hu.
Qed.

Lemma built_unique_ids (st : MessageStore.t) : built st -> unique_ids st.
Proof.
  induction 1 as [base|st st' chatId m s _ IH Hm Hs].
  - intros path f. simpl. rewrite lookup_empty. discriminate.
  - exact (saveMessage_unique_ids st st' chatId m s IH Hm Hs).
Qed.

Lemma stored_iff (st : MessageStore.t) (chatId : JV) (s : string) :
  unique_ids st -> stored st chatId s <-> Some s ∈ map json_id (file_records st chatId).
Proof.
  intros Hu. destruct (unique_ids_load st chatId Hu) as (Hl & Hf & Hn).
  unfold stored, MessageStore.getMessage. rewrite Hl. simpl. split.
  - intros (r & Hr & Ht). destruct (decide (Some s ∈ map json_id (file_records st chatId))) as [|Hin];
      [assumption|].
    rewrite (find_absent s _ Hf Hin) in Hr. injection Hr as <-. discriminate.
  - intros Hin. destruct (find_present s _ Hf Hin) as (j & Hj & ->).
    eexists. split; [reflexivity|]. exact (record_truthy j s Hj).
Qed.

Lemma array_find_Ok (v : JV) (p : JV -> Res bool) (r : JV) :
  MessageStore.array_find v p = Ok r -> exists xs, v = JArr xs.
Proof. destruct v; simpl; try discriminate; eauto; unfold MessageStore.not_a_function; simpl; discriminate. Qed.

Lemma count_id_le_1 (s : string) (js : list Json) :
  Forall (fun j => is_Some (json_id j)) js -> NoDup (map json_id js) ->
  (count_id s (map of_json js) <= 1)%nat.
Proof.
  intros Hf Hn. destruct (decide (Some s ∈ map json_id js)) as [Hin|Hin].
  - rewrite (count_id_unique s js Hf Hn Hin). lia.
  - rewrite (count_id_absent s js Hf Hin). lia.
Qed.

(** C6: [saveMessage(chatId, m)] is a no-op whenever a record with [m.id] is
    already stored.  On a store kept by [saveMessage] no chat ever holds two
    records with one id; saving a message succeeds and leaves exactly one
    record with its id in the chat, and any later save under the same id is
    ignored. *)
Theorem saveMessage_idempotent_by_id (st : MessageStore.t) (chatId m : JV) :
  (forall id r, get m "id" = Ok id ->
     MessageStore.getMessage st chatId id = Ok r -> truthy r = true ->
     MessageStore.saveMessage st chatId m = Ok st) /\
  (built st ->
     (forall chat s, (count_id s (records st chat) <= 1)%nat) /\
     (forall s, is_message m s ->
        exists st', MessageStore.saveMessage st chatId m = Ok st' /\
          count_id s (records st' chatId) = 1%nat /\
          (stored st chatId s -> st' = st) /\
          (forall m', is_message m' s -> MessageStore.saveMessage st' chatId m' = Ok st'))).
Proof.
  split.
  { intros id r Hid Hg Ht. unfold MessageStore.getMessage in Hg.
    unfold MessageStore.saveMessage.
    destruct (MessageStore._loadMessages st chatId) as [v|e]; [|discriminate]. simpl in *.
    destruct (array_find_Ok _ _ _ Hg) as [xs ->]. simpl in *.
    rewrite (same_id_has_id m id xs Hid), Hg. simpl. rewrite Ht. reflexivity. }
  intros Hb. assert (Hu := built_unique_ids st Hb). split.
  { intros chat s. destruct (unique_ids_load st chat Hu) as (Hl & Hf & Hn).
    unfold records. rewrite Hl. apply count_id_le_1; assumption. }
  intros s Hm. destruct Hm as (fs & -> & Hid).
  eexists. split; [apply (saveMessage_spec st chatId fs s Hu Hid)|].
  set (st' := if bool_decide _ then st else _).
  assert (Hu' : unique_ids st').
  { apply (saveMessage_unique_ids st st' chatId (JObj fs) s Hu); [exists fs; auto|].
    apply (saveMessage_spec st chatId fs s Hu Hid). }
  assert (Hin' : Some s ∈ map json_id (file_records st' chatId)).
  { subst st'. case_bool_decide as Hin; [exact Hin|].
    unfold file_records, MessageStore._getFilePath. simpl.
    rewrite lookup_insert_eq, map_app. apply elem_of_app. right.
    cbn [map]. rewrite (message_json fs s Hid). left. }
  destruct (unique_ids_load st' chatId Hu') as (Hl' & Hf' & Hn').
  split; [|split].
  - unfold records. rewrite Hl'. apply count_id_unique; assumption.
  - intros Hst. apply (stored_iff st chatId s Hu) in Hst.
    subst st'. rewrite bool_decide_eq_true_2 by exact Hst. reflexivity.
  - intros m' (fs' & -> & Hid').
    rewrite (saveMessage_spec st' chatId fs' s Hu' Hid').
    rewrite bool_decide_eq_true_2 by exact Hin'. reflexivity.
Qed.

Lemma loadMessages_text (st : MessageStore.t) (chatId : JV) (j : Json) :
  MessageStore.disk st !! MessageStore._getFilePath st chatId = Some (MessageStore.Text (Some j)) ->
  MessageStore._loadMessages st chatId = Ok (or_else (of_json j) (JArr [])).
Proof.
  intros E. destruct (loadMessages_cases st chatId) as [[Hc _]|[j' [E' H]]].
  - unfold corrupt in Hc. rewrite E in Hc. contradiction.
  - rewrite E in E'. injection E' as <-. exact H.
Qed.

(** Whatever [_loadMessages] returns as an array was parsed from JSON. *)
Lemma loaded_array (st : MessageStore.t) (chatId : JV) (xs : list JV) :
  MessageStore._loadMessages st chatId = Ok (JArr xs) -> exists js, xs = map of_json js.
Proof.
  intros H. destruct (loadMessages_cases st chatId) as [[_ H']|[j [_ H']]];
    rewrite H' in H.
  - injection H as <-. exists []. reflexivity.
  - unfold or_else in H. destruct (truthy (of_json j)).
    + destruct j; try discriminate. injection H as <-. eauto.
    + injection H as <-. exists []. reflexivity.
Qed.

Lemma find_elem_app_undef (p : JV -> Res bool) (xs ys : list JV) :
  Forall (fun x => x <> JUndef) xs ->
  MessageStore.find_elem p xs = Ok JUndef ->
  MessageStore.find_elem p (xs ++ ys) = MessageStore.find_elem p ys.
Proof.
  induction 1 as [|x r Hx _ IH]; simpl; [reflexivity|].
  destruct (p x) as [[|]|]; simpl; try discriminate.
  - intros [= ->]. contradiction.
  - exact IH.
Qed.


(** ** Poll votes *)

Lemma get_cases (v : JV) (k : string) :
  get v k = Ok (opt_get v k) \/
  (exists e, get v k = Throw e /\ exn_message e <> "" /\ nullish v = true).
Proof.
  destruct (nullish v) eqn:E.
  - right. destruct v; try discriminate; simpl; eexists; (split; [reflexivity|]);
      split; auto; simpl; destruct k; discriminate.
  - left. apply get_truthy_Ok. exact E.
Qed.

Lemma opt_get_nullish (v : JV) (k : string) : nullish v = true -> opt_get v k = JUndef.
Proof. destruct v; simpl; try discriminate; reflexivity. Qed.

Lemma truthy_opt_get (v : JV) (k : string) : truthy (opt_get v k) = true -> truthy v = true.
Proof.
  unfold opt_get. destruct v; simpl; try discriminate; try reflexivity.
  destruct s; [|reflexivity]. repeat case_match; simpl; try discriminate;
    match goal with H : _ = Ok _ |- _ => try (injection H as <-) end; simpl; try discriminate.
  all: unfold string_at in *; simpl in *; try discriminate.
  all: destruct n; simpl; discriminate.
Qed.

Lemma assignable_Throw_message (v : JV) (k : string) (e : Exn) :
  assignable v k = Throw e -> exn_message e <> "".
Proof.
  destruct v; simpl; intros H; try discriminate; injection H as <-; simpl; discriminate.
Qed.

Ltac res_step := cbn [mbind res_bind bind try_catch]; cbv beta.

(** One property read of a body: it yields the [?.] value, or the body
    throws the read's error. *)
Ltac on_get :=
  match goal with
  | |- context [mbind _ (get ?v ?k)] =>
      destruct (get_cases v k) as [->|(? & -> & ? & ?)]; res_step;
      [|solve [right; eauto]]
  end.

(** The outcomes of the [try] block when the creation record is found but
    incomplete, or when decryption fails. *)
Lemma poll_update_try_outcome (client : Client) (key : JV) (isGroup : bool) (clientJid : string)
    (pollUpdate : JV) :
  truthy (opt_get pollUpdate "pollCreationMessageKey") = true ->
  let creationKey := opt_get pollUpdate "pollCreationMessageKey" in
  match store_getMessage (store client) (opt_get creationKey "remoteJid") (opt_get creationKey "id") with
  | Throw e => poll_update_try client key isGroup clientJid pollUpdate = Throw e
  | Ok c =>
      if truthy c then
        (complete_record c = false \/
         exists e, exn_message e <> "" /\
                   forall p, decryptPollVote client (opt_get pollUpdate "vote") p = Throw e) ->
        (exists r, r <> "" /\
           poll_update_try client key isGroup clientJid pollUpdate
           = Ok (poll_state pollUpdate [] [("error", JStr r)])) \/
        (exists e, poll_update_try client key isGroup clientJid pollUpdate = Throw e /\
                   exn_message e <> "")
      else poll_update_try client key isGroup clientJid pollUpdate = Ok JNull
  end.
Proof.
  intros Hk creationKey. unfold poll_update_try.
  rewrite (get_truthy_Ok pollUpdate) by (apply truthy_not_nullish, truthy_opt_get with (k := "pollCreationMessageKey"), Hk).
  res_step. fold creationKey.
  rewrite !(get_truthy_Ok creationKey) by (apply truthy_not_nullish, Hk).
  res_step.
  destruct (store_getMessage _ _ _) as [c|e]; res_step; [|reflexivity].
  destruct (truthy c) eqn:Hc; cbn [negb]; [|reflexivity].
  intros Hcase.
  on_get. on_get. on_get.
  set (rawMessage := opt_get (opt_get c "raw") "message").
  assert (Hpoll : exists poll,
             poll = or_else (opt_get rawMessage "pollCreationMessage")
                            (opt_get rawMessage "pollCreationMessageV3") /\
             ((if truthy (opt_get rawMessage "pollCreationMessage")
               then Ok (opt_get rawMessage "pollCreationMessage")
               else get rawMessage "pollCreationMessageV3") = Ok poll \/
              exists e, (if truthy (opt_get rawMessage "pollCreationMessage")
                         then Ok (opt_get rawMessage "pollCreationMessage")
                         else get rawMessage "pollCreationMessageV3") = Throw e /\
                        exn_message e <> "")).
  { eexists. split; [reflexivity|]. unfold or_else.
    destruct (truthy (opt_get rawMessage "pollCreationMessage")); [left; reflexivity|].
    destruct (get_cases rawMessage "pollCreationMessageV3") as [->|(e & -> & He & _)]; eauto. }
  destruct Hpoll as (poll & Hpoll & [->|(e & -> & He)]); res_step; [|right; eauto].
  destruct (assignable rawMessage "pollCreationMessage") eqn:Ha; res_step;
    [|right; eauto using assignable_Throw_message].
  destruct (truthy poll) eqn:Hp; cbn [negb]; [|left; eexists; split; [|reflexivity]; discriminate].
  on_get. on_get.
  set (secret := opt_get (opt_get rawMessage "messageContextInfo") "messageSecret").
  destruct (negb (truthy secret) || negb (truthy (opt_get poll "name"))
            || negb (truthy (opt_get poll "options"))) eqn:Hinc;
    [left; eexists; split; [|reflexivity]; discriminate|].
  destruct Hcase as [Hincomplete|(e & He & Hdec)].
  { exfalso. unfold complete_record in Hincomplete. cbn [opt_path] in Hincomplete.
    fold rawMessage in Hincomplete. rewrite <- Hpoll in Hincomplete. fold secret in Hincomplete.
    rewrite Hp in Hincomplete.
    apply orb_false_elim in Hinc as [Hinc H3]. apply orb_false_elim in Hinc as [H1 H2].
    apply negb_false_iff in H1, H2, H3. rewrite H1, H2, H3 in Hincomplete. discriminate. }
  on_get. on_get. on_get.
  assert (Hv : (exists v, (if isGroup then get key "participant"
                           else get key "fromMe" ≫= (fun fromMe =>
                                  if truthy fromMe then Ok (JStr clientJid) else get key "remoteJid"))
                          = Ok v) \/
               (exists e', (if isGroup then get key "participant"
                            else get key "fromMe" ≫= (fun fromMe =>
                                   if truthy fromMe then Ok (JStr clientJid) else get key "remoteJid"))
                           = Throw e' /\ exn_message e' <> "")).
  { destruct isGroup.
    - destruct (get_cases key "participant") as [->|(e' & -> & He' & _)]; eauto.
    - destruct (get_cases key "fromMe") as [->|(e' & -> & He' & _)]; res_step; eauto.
      destruct (truthy (opt_get key "fromMe")); eauto.
      destruct (get_cases key "remoteJid") as [->|(e' & -> & He' & _)]; eauto. }
  destruct Hv as [(v & ->)|(e' & -> & He')]; res_step; [|right; eauto].
  rewrite Hdec. res_step. right. eauto.
Qed.

Lemma extractPollUpdate_unfold (msg : JV) (client : Client) (jid : string) :
  is_poll_update msg client ->
  opt_path msg ["key"; "remoteJid"] = JStr jid ->
  _extractPollUpdate msg client =
    try_catch
      (poll_update_try client (opt_get msg "key") (ends_with "@g.us" jid)
         (jidNormalizedUser client (opt_path (sock client) ["user"; "id"]))
         (opt_path msg ["message"; "pollUpdateMessage"]))
      (fun err => Ok (poll_state (opt_path msg ["message"; "pollUpdateMessage"]) []
                        (error_field err))).
Proof.
  intros (_ & Hu & Hk) Hj. cbn [opt_path] in *. unfold _extractPollUpdate.
  assert (Hm : nullish msg = false).
  { destruct (nullish msg) eqn:E; [|reflexivity].
    rewrite (opt_get_nullish msg "key" E) in Hj. discriminate. }
  assert (Hkey : nullish (opt_get msg "key") = false).
  { destruct (nullish (opt_get msg "key")) eqn:E; [|reflexivity].
    rewrite (opt_get_nullish _ "remoteJid" E) in Hj. discriminate. }
  assert (Hs : nullish (sock client) = false).
  { destruct (nullish (sock client)) eqn:E; [|reflexivity].
    rewrite (opt_get_nullish _ "user" E) in Hu. discriminate. }
  rewrite (get_truthy_Ok msg "key" Hm). res_step.
  rewrite (get_truthy_Ok _ "remoteJid" Hkey), Hj. res_step.
  cbn [endsWith]. res_step.
  rewrite (get_truthy_Ok _ "user" Hs). res_step.
  rewrite (get_truthy_Ok _ "id" Hu). res_step.
  rewrite (get_truthy_Ok msg "message" Hm). res_step.
  rewrite Hk, (truthy_opt_get _ _ Hk). reflexivity.
Qed.

(** What holds of the degraded results: a poll-update envelope never makes
    [_extractPollUpdate] throw; when the creation record is found but lacks
    the poll, its secret, its name or its options, when the store lookup
    fails and when the vote decryption raises an exception, the result is a
    degraded PollState with no selected option whose error reason is
    non-empty (the fixed reason of the guard, or the message of the
    exception).  A creation message the store does not have gives [null]. *)
Lemma extractPollUpdate_degrades (msg : JV) (client : Client) :
  is_poll_update msg client ->
  (exists v, _extractPollUpdate msg client = Ok v) /\
  (forall c, creation_lookup msg client = Ok c -> truthy c = false ->
     _extractPollUpdate msg client = Ok JNull) /\
  (forall c, creation_lookup msg client = Ok c -> truthy c = true ->
     complete_record c = false ->
     degraded msg (_extractPollUpdate msg client)) /\
  (forall c e, creation_lookup msg client = Ok c -> truthy c = true ->
     (forall p, decryptPollVote client
                  (opt_path msg ["message"; "pollUpdateMessage"; "vote"]) p = Throw e) ->
     exn_message e <> "" ->
     degraded msg (_extractPollUpdate msg client)) /\
  (forall e, creation_lookup msg client = Throw e -> exn_message e <> "" ->
     degraded msg (_extractPollUpdate msg client)).
Proof.
  intros Hp. assert (Hp' := Hp). destruct Hp' as ([jid Hj] & _ & Hk).
  rewrite (extractPollUpdate_unfold msg client jid Hp Hj).
  unfold creation_lookup, degraded. cbn [opt_path] in *.
  set (pollUpdate := opt_get (opt_get msg "message") "pollUpdateMessage") in *.
  assert (Ho := poll_update_try_outcome client (opt_get msg "key") (ends_with "@g.us" jid)
                  (jidNormalizedUser client (opt_get (opt_get (sock client) "user") "id"))
                  pollUpdate Hk).
  cbv zeta in Ho.
  destruct (store_getMessage _ _ _) as [c|e].
  - destruct (truthy c) eqn:Hc.
    + repeat split.
      * destruct (poll_update_try _ _ _ _ _); simpl; eauto.
      * intros c' [= <-] Hc'. congruence.
      * intros c' [= <-] _ Hinc.
        destruct (Ho (or_introl Hinc)) as [(r & Hr & ->)|(e & -> & He)]; simpl; eauto.
      * intros c' e [= <-] _ Hdec He.
        destruct (Ho (or_intror (ex_intro _ e (conj He Hdec)))) as [(r & Hr & ->)|(e' & -> & He')];
          simpl; eauto.
      * discriminate.
    + rewrite Ho. simpl. repeat split; eauto; try discriminate.
      * intros c' [= <-]. congruence.
      * intros c' e [= <-]. congruence.
  - rewrite Ho. simpl. repeat split; eauto; try discriminate.
    intros e' [= <-] He. eauto.
Qed.

(** C1 at a vote on the poll POLL1, which is absent from the store:
    [_extractPollUpdate] returns [null], not a degraded PollState with an
    error reason, and [normalize] carries that [null] in [pollUpdate]. *)
Theorem absent_poll_creation_gives_null :
  creation_lookup vote_envelope client0 = Ok JUndef /\
  _extractPollUpdate vote_envelope client0 = Ok JNull /\
  ~ degraded vote_envelope (_extractPollUpdate vote_envelope client0) /\
  (m ← normalize contact0 vote_envelope client0;
   Ok (opt_get m "type", opt_get m "pollUpdate")) = Ok (JStr "poll_update", JNull).
Proof.
  split; [vm_compute; reflexivity|]. split; [vm_compute; reflexivity|]. split.
  - intros (reason & rest & _ & H). vm_compute in H. discriminate.
  - vm_compute. reflexivity.
Qed.

Lemma extractPollUpdate_degrades_witness :
  is_poll_update vote_envelope client1 /\
  degraded vote_envelope (_extractPollUpdate vote_envelope client1).
Proof.
  assert (H : is_poll_update vote_envelope client1).
  { split; [exists chat0; reflexivity|]. split; reflexivity. }
  split; [exact H|].
  destruct (extractPollUpdate_degrades vote_envelope client1 H) as (_ & _ & H3 & _).
  apply (H3 poll_record_without_secret); vm_compute; reflexivity.
Defined.

(** A vote that decrypts is resolved to the labels of the chosen options. *)
Example vote_resolved :
  _extractPollUpdate vote_envelope voting_client
  = Ok (JObj [("pollCreationMessageId", JStr "POLL1");
              ("voterTimestamp", JDate (Some 1700000003000));
              ("selectedOptions", JArr [JStr "Sushi"]);
              ("success", JBool true)]).
Proof. vm_compute. reflexivity. Qed.

(** The same vote, when decryption fails: the degraded result carries the
    message of the exception. *)
Example vote_not_decrypted :
  _extractPollUpdate vote_envelope
    (client_with (PluggedStore (fun _ _ => Ok poll_record) None))
  = Ok (JObj [("pollCreationMessageId", JStr "POLL1");
              ("voterTimestamp", JDate (Some 1700000003000));
              ("selectedOptions", JArr []);
              ("error", JStr "Unsupported state or unable to authenticate data");
              ("code", JUndef)]).
Proof. vm_compute. reflexivity. Qed.

(** ** [normalize] *)

(** The first line of [normalize]. *)
Lemma normalize_no_message (contact raw : JV) (c : Client) :
  truthy (opt_get raw "message") = false -> normalize contact raw c = Ok JNull.
Proof.
  intros H. rewrite normalize_unfold. unfold normalize_body.
  rewrite H, orb_true_r. reflexivity.
Qed.

Lemma falsy_no_message (raw : JV) : truthy raw = false -> truthy (opt_get raw "message") = false.
Proof.
  intros H. destruct (truthy (opt_get raw "message")) eqn:E; [|reflexivity].
  apply truthy_opt_get in E. congruence.
Qed.




(** An edit wrapper is normalised to what the recursive call returns, and
    that call returns [null]: the wrapper yields [null] once the id of the
    original key was read. *)
Lemma normalize_edit (contact raw : JV) (c : Client) :
  truthy (opt_path raw ["message"; "protocolMessage"; "editedMessage"]) = true ->
  normalize contact raw c
  = (get (opt_path raw ["message"; "protocolMessage"; "key"]) "id" ≫= fun _ => Ok JNull).
Proof.
  cbn [opt_path]. intros H. rewrite normalize_unfold. unfold normalize_body.
  assert (Hpm := truthy_opt_get _ _ H). assert (Hm := truthy_opt_get _ _ Hpm).
  assert (Hr := truthy_opt_get _ _ Hm).
  rewrite Hr, Hm. cbn [negb orb].
  rewrite (get_truthy_Ok raw "message") by (apply truthy_not_nullish, Hr). res_step.
  cbn [opt_path]. rewrite H.
  rewrite (get_truthy_Ok _ "protocolMessage") by (apply truthy_not_nullish, Hm). res_step.
  rewrite (get_truthy_Ok _ "key") by (apply truthy_not_nullish, Hpm). res_step.
  rewrite (get_truthy_Ok raw "pushName") by (apply truthy_not_nullish, Hr). res_step.
  destruct (get _ "id"); reflexivity.
Qed.

(** C2 at an edit of MSG1: [normalize] resolves to [null], although the
    replacement content alone normalises to a message with the original id. *)
Theorem normalize_edit_returns_null :
  normalize contact0 edit_envelope client0 = Ok JNull /\
  (m ← normalize contact0 edited_inner_envelope client0;
   Ok (opt_get m "id", opt_get m "body", opt_get m "isEdited"))
  = Ok (JStr "MSG1", JStr "Ola, tudo bem?", JBool false).
Proof. split; vm_compute; reflexivity. Qed.

Lemma lookup_set_field_same (k : string) (v : JV) (l : list (string * JV)) :
  lookup_field k (set_field k v l) = v.
Proof.
  induction l as [|[k' x] r IH]; simpl.
  - rewrite String.eqb_refl. reflexivity.
  - destruct (String.eqb k k') eqn:E; simpl; rewrite ?String.eqb_refl, ?E; auto.
Qed.

Lemma lookup_set_field_other (k k' : string) (v : JV) (l : list (string * JV)) :
  k <> k' -> lookup_field k (set_field k' v l) = lookup_field k l.
Proof.
  intros Hne. induction l as [|[k2 x] r IH]; simpl.
  - apply String.eqb_neq in Hne. rewrite Hne. reflexivity.
  - destruct (String.eqb k' k2) eqn:E; simpl.
    + apply String.eqb_eq in E as <-. apply String.eqb_neq in Hne. rewrite Hne. reflexivity.
    + rewrite IH. reflexivity.
Qed.

(** Case analysis on the innermost scrutinee of nested matches. *)
Ltac destruct_innermost x :=
  lazymatch x with
  | match ?y with _ => _ end => destruct_innermost y
  | _ => destruct x eqn:?
  end.

(** [_enrichWithTypedData] assigns [hasMedia], [media] and [location] only. *)
Lemma enrich_preserves (l l' : list (string * JV)) (raw : JV) (k : string) :
  _enrichWithTypedData l raw = Ok l' ->
  k <> "hasMedia" -> k <> "media" -> k <> "location" ->
  lookup_field k l' = lookup_field k l.
Proof.
  unfold _enrichWithTypedData. cbv beta iota delta [mbind res_bind bind].
  intros H H1 H2 H3. revert H.
  repeat (cbv beta iota;
          lazymatch goal with
          | |- match ?x with _ => _ end = _ -> _ => destruct_innermost x
          | |- _ => idtac
          end);
    intros [= <-]; rewrite ?lookup_set_field_other by assumption; reflexivity.
Qed.

(** Whenever [normalize] returns a reply, its [quotedMessage] is the promise
    of the recursive call, settled with [null]. *)
Lemma normalize_reply_quotes_promise (contact raw : JV) (c : Client) (m : JV) :
  normalize contact raw c = Ok m ->
  opt_get m "isReply" = JBool true ->
  opt_get m "quotedMessage" = JPromise (Ok JNull) [].
Proof.
  rewrite normalize_unfold. unfold normalize_body.
  cbv beta iota delta [mbind res_bind bind async_return].
  repeat (cbv beta iota zeta;
          lazymatch goal with
          | |- match ?x with _ => _ end = _ -> _ => destruct_innermost x
          | |- _ => idtac
          end);
    intros [= <-]; try discriminate.
  all: try (unfold opt_get at 2; cbn [get]; intros _; apply lookup_set_field_same).
  all: unfold opt_get at 1; cbn [get];
    erewrite enrich_preserves by (eassumption || discriminate);
    cbn; discriminate.
Qed.

(** C3 at a reply quoting MSG1: the [quotedMessage] field of the result holds
    a promise, which settles with [null]. *)
Theorem normalize_reply_quoted_is_promise :
  (m ← normalize contact0 reply_envelope client0;
   Ok (opt_get m "isReply", opt_get m "quotedMessage"))
  = Ok (JBool true, JPromise (Ok JNull) []).
Proof. vm_compute. reflexivity. Qed.

(** ** [_getFriendlyType] *)

Lemma first_rule_range (rules : list ((JV -> Res bool) * string)) (m : JV) (t : string) :
  first_rule rules m = Ok t -> t ∈ "unknown" :: map snd rules.
Proof.
  induction rules as [|[cond ty] r IH]; simpl.
  - intros [= <-]. left.
  - destruct (cond m) as [[|]|]; simpl; try discriminate.
    + intros [= <-]. right. left.
    + intros H. apply IH in H. apply elem_of_cons in H as [->|H]; [left|]. right. right. exact H.
Qed.

(** Whatever [_getFriendlyType] returns is in the enumeration. *)
Lemma getFriendlyType_range (m : JV) (t : string) :
  _getFriendlyType m = Ok t -> t ∈ friendly_types.
Proof.
  unfold _getFriendlyType. destruct (truthy m); cbn [negb].
  - apply first_rule_range.
  - intros [= <-]. left.
Qed.

Lemma first_rule_total (rules : list ((JV -> Res bool) * string)) (m : JV) :
  Forall (fun r => exists b, fst r m = Ok b) rules -> exists t, first_rule rules m = Ok t.
Proof.
  induction 1 as [|[cond ty] r [b Hb] _ IH]; simpl in *; [eauto|].
  rewrite Hb. simpl. destruct b; eauto.
Qed.

Lemma has_Ok (m : JV) (k : string) : nullish m = false -> has m k = Ok (truthy (opt_get m k)).
Proof. intros H. unfold has. rewrite (get_truthy_Ok m k H). reflexivity. Qed.

Lemma first_button_is_Ok (name : string) (m : JV) :
  nullish m = false -> first_button_readable m -> exists b, first_button_is name m = Ok b.
Proof.
  intros Hm Hb. unfold first_button_readable in Hb. cbn [opt_path] in Hb.
  unfold first_button_is. rewrite (get_truthy_Ok m _ Hm). res_step.
  destruct (truthy (opt_get m "interactiveMessage")) eqn:E; [|eauto].
  rewrite (get_truthy_Ok _ "interactiveButtons") by (apply truthy_not_nullish, E). res_step.
  destruct Hb as [->|Hb]; [eauto|].
  destruct (truthy (opt_get _ "interactiveButtons")) eqn:E2; [|eauto].
  rewrite (get_truthy_Ok _ "0") by (apply truthy_not_nullish, E2). res_step.
  rewrite (get_truthy_Ok _ "name" Hb). res_step. eauto.
Qed.

Lemma has2_Ok (a b : string) (m : JV) : nullish m = false -> exists r, has2 a b m = Ok r.
Proof.
  intros Hm. unfold has2. rewrite (get_truthy_Ok m _ Hm). res_step.
  destruct (truthy (opt_get m a)) eqn:E; [|eauto].
  rewrite has_Ok by (apply truthy_not_nullish, E). eauto.
Qed.

Lemma native_flow_named_Ok (name : string) (m : JV) :
  nullish m = false -> exists r, native_flow_named name m = Ok r.
Proof.
  intros Hm. unfold native_flow_named. rewrite (get_truthy_Ok m _ Hm). res_step.
  destruct (truthy (opt_get m "interactiveResponseMessage")) eqn:E; [|eauto].
  rewrite (get_truthy_Ok _ "nativeFlowResponseMessage") by (apply truthy_not_nullish, E). res_step.
  destruct (truthy (opt_get _ "nativeFlowResponseMessage")) eqn:E2; [|eauto].
  rewrite (get_truthy_Ok _ "name") by (apply truthy_not_nullish, E2). res_step. eauto.
Qed.

(** Apart from the missing first button, the classification is total and
    stays within the enumeration. *)
Lemma getFriendlyType_total (m : JV) :
  first_button_readable m -> exists t, _getFriendlyType m = Ok t /\ t ∈ friendly_types.
Proof.
  intros Hb.
  assert (H : exists t, _getFriendlyType m = Ok t).
  { unfold _getFriendlyType. destruct (truthy m) eqn:Hm; cbn [negb]; [|eauto].
    apply truthy_not_nullish in Hm. apply first_rule_total. unfold friendly_rules.
    repeat (apply List.Forall_cons; cbn [fst];
            [first [ apply first_button_is_Ok; assumption
                   | apply has2_Ok; assumption
                   | apply native_flow_named_Ok; assumption
                   | unfold orR; rewrite !has_Ok by assumption; res_step;
                     repeat case_match; eauto ]|]).
    apply List.Forall_nil. }
  destruct H as [t Ht]. eauto using getFriendlyType_range.
Qed.

Example unrecognized_is_unknown :
  _getFriendlyType (JObj [("futureMessage", JObj [("text", JStr "x")])]) = Ok "unknown".
Proof. vm_compute. reflexivity. Qed.

(** C9 at an interactive message with an empty [interactiveButtons] array:
    [_getFriendlyType] throws a TypeError reading [name] of the missing first
    button instead of returning a type. *)
Theorem getFriendlyType_throws_on_empty_buttons :
  _getFriendlyType empty_buttons_message
  = Throw (TypeError "Cannot read properties of undefined (reading 'name')").
Proof. vm_compute. reflexivity. Qed.

(** ** The connection lifecycle *)

Import Lifecycle.

(** A restart-required close reconnects and emits nothing. *)
Lemma close_restart_required (DR : DisconnectReason) (st : State) (update : JV) (boom : Boom)
    (rm : Res unit) :
  output_statusCode boom = restartRequired DR ->
  snd (on_close DR st update boom rm)
  = ((if presenceSetInterval st then [ClearInterval] else []) ++ [Connect])%list.
Proof.
  intros H. unfold on_close. rewrite H, Z.eqb_refl. reflexivity.
Qed.

(** A logged-out close that is not manual: the session directory is removed
    before the single [disconnected] event, classified [logged_out]. *)
Lemma close_logged_out (DR : DisconnectReason) (st : State) (update : JV) (boom : Boom)
    (rm : Res unit) :
  loggedOut DR <> restartRequired DR ->
  output_statusCode boom = loggedOut DR -> manualDisconnect st = false ->
  disconnect_events (snd (on_close DR st update boom rm))
    = [(JStr DisconnectReasons.LOGGED_OUT, reasonType boom)] /\
  (exists before after,
     snd (on_close DR st update boom rm)
     = (before ++ RmSession (sessionPath st) :: after)%list /\
     disconnect_events before = [] /\
     disconnect_events after = [(JStr DisconnectReasons.LOGGED_OUT, reasonType boom)]) /\
  (rm = Ok tt -> sessionDir (fst (on_close DR st update boom rm)) = false).
Proof.
  intros Hne Hc Hm. unfold on_close. rewrite Hc, Hm.
  rewrite (proj2 (Z.eqb_neq _ _) Hne), Z.eqb_refl.
  destruct (presenceSetInterval st), rm as [[]|e],
    (loggedOut DR =? unavailableService DR); cbn;
    (split; [reflexivity|]); (split; [|intros; try reflexivity; discriminate]).
  all: first [ exists [ClearInterval]; eexists; split; [reflexivity|]; split; reflexivity
             | exists []; eexists; split; [reflexivity|]; split; reflexivity ].
Qed.

(** The classification depends on the status code, the manual flag and the
    reason type only. *)
Lemma close_classification_pure (DR : DisconnectReason) (st st' : State) (update update' : JV)
    (boom boom' : Boom) (rm rm' : Res unit) :
  output_statusCode boom = output_statusCode boom' ->
  manualDisconnect st = manualDisconnect st' ->
  reasonType boom = reasonType boom' ->
  disconnect_events (snd (on_close DR st update boom rm))
  = disconnect_events (snd (on_close DR st' update' boom' rm')).
Proof.
  intros Hc Hm Hr. unfold on_close. rewrite <- Hc, <- Hm, <- Hr.
  destruct (output_statusCode boom =? restartRequired DR).
  { destruct (presenceSetInterval st), (presenceSetInterval st'); reflexivity. }
  destruct (manualDisconnect st), (output_statusCode boom =? loggedOut DR),
    (output_statusCode boom =? 408), (output_statusCode boom =? unavailableService DR),
    (presenceSetInterval st), (presenceSetInterval st'), rm, rm',
    (restartOnClose st), (restartOnClose st'); reflexivity.
Qed.



(** ** The [messages.upsert] handler *)

(** The class [MessageStore] has [saveMessage] and no [setMessage]. *)
Lemma file_store_methods (st : MessageStore.t) :
  store_has_method (FileStore st) "saveMessage" = true /\
  store_has_method (FileStore st) "setMessage" = false.
Proof. split; vm_compute; reflexivity. Qed.

(** With the default store the handler never writes a message: the guard on
    [this.store.setMessage] is false for it. *)
Lemma upsert_file_store_never_stores (contacts : Contacts) (c : Client) (event : JV)
    (st : MessageStore.t) :
  store c = FileStore st -> never_stores (snd (on_messages_upsert contacts c event)).
Proof.
  intros Hs. unfold on_messages_upsert, dispatch_message. rewrite Hs.
  rewrite (proj2 (file_store_methods st)).
  cbv beta iota zeta delta [mbind res_bind bind never_stores].
  repeat (cbv beta iota zeta;
          lazymatch goal with
          | |- Forall _ (snd (match ?x with _ => _ end)) => destruct_innermost x
          | |- _ => idtac
          end).
  all: try match goal with
           | H : _ && false = true |- _ => rewrite andb_false_r in H; discriminate
           end.
  all: cbn [snd];
    repeat (apply List.Forall_cons; [intros ? ?; discriminate|]); apply List.Forall_nil.
Qed.

(** Whatever the store, the handler emits exactly one event, and a store
    write, when it happens, comes before the event and carries its message. *)
Lemma upsert_write_then_emit (contacts : Contacts) (c : Client) (event : JV) :
  write_then_emit (snd (on_messages_upsert contacts c event)).
Proof.
  unfold on_messages_upsert, dispatch_message.
  cbv beta iota zeta delta [mbind res_bind bind].
  repeat (cbv beta iota zeta;
          lazymatch goal with
          | |- write_then_emit (snd (match ?x with _ => _ end)) => destruct_innermost x
          | |- _ => idtac
          end).
  all: cbn [app snd]; first [left; eexists; eexists; reflexivity
                            | right; eexists; eexists; eexists; reflexivity].
Qed.

(** C5 at an incoming text message on a fresh session with the default
    store: the handler emits [message_received] with the normalised message
    and performs no store write, so [getMessage] does not find it. *)
Theorem upsert_default_store_not_persisted :
  (nmsg ← normalize contact0 text_envelope client0;
   Ok (snd (on_messages_upsert contacts0 client0 upsert_event),
       opt_get nmsg "id", opt_get nmsg "body", truthy nmsg))
  = (nmsg ← normalize contact0 text_envelope client0;
     Ok ([Emit ClientEvent.MESSAGE_RECEIVED nmsg], JStr "MSG1", JStr "Ola!", true)) /\
  (exists nmsg, normalize contact0 text_envelope client0 = Ok nmsg) /\
  never_stores (snd (on_messages_upsert contacts0 client0 upsert_event)) /\
  MessageStore.getMessage store0 (JStr chat0) (JStr "MSG1") = Ok JUndef.
Proof.
  split; [vm_compute; reflexivity|].
  split; [eexists; vm_compute; reflexivity|].
  split; [apply (upsert_file_store_never_stores contacts0 client0 upsert_event store0); reflexivity|].
  vm_compute. reflexivity.
Qed.

(** ** Store samples *)

Lemma store2_built : built store2.
Proof.
  apply (built_save store0 store2 (JStr chat0) text_record "MSG1").
  - apply built_create.
  - exists [("id", JStr "MSG1"); ("body", JStr "Ola!"); ("fromMe", JBool false)].
    split; reflexivity.
  - vm_compute. reflexivity.
Defined.

Lemma saveMessage_idempotent_by_id_witness :
  built store2 /\ is_message text_record_resent "MSG1" /\
  MessageStore.saveMessage store2 (JStr chat0) text_record_resent = Ok store2 /\
  count_id "MSG1" (records store2 (JStr chat0)) = 1%nat.
Proof.
  assert (Hm : is_message text_record_resent "MSG1").
  { exists [("id", JStr "MSG1"); ("body", JStr "Ola de novo!"); ("fromMe", JBool false)].
    split; reflexivity. }
  split; [exact store2_built|]. split; [exact Hm|].
  destruct (saveMessage_idempotent_by_id store2 (JStr chat0) text_record_resent) as [_ H].
  destruct (H store2_built) as [_ H']. clear H.
  destruct (H' "MSG1" Hm) as (st' & Hsave & Hcount & Hstored & _).
  assert (Hst : stored store2 (JStr chat0) "MSG1").
  { eexists. split; vm_compute; reflexivity. }
  rewrite (Hstored Hst) in Hsave, Hcount. split; assumption.
Defined.


